(** * Heliox gateway: customer portal, authentication and rate limiting

    A shallow embedding of the portal endpoints ([api/portal.py]), of the
    authentication endpoints ([api/auth.py]), of the models they touch
    ([models/user.py], [models/plan.py], [models/tenant.py]), of the e-mail
    service ([services/email.py]) and of the settings they read
    ([config.py]); the token bucket of the rate limiter follows the
    specification.

    Conventions of the embedding:
    - a table is the list of its rows; a query is a [filter] over it;
    - an endpoint is a computation in a state-and-exception monad over the
      [World] (the tables and the queue of background e-mails);
    - every use of the ORM (a [select], the constructor of a mapped class, a
      relationship attribute, a flush) first configures the mappers from the
      [relationship] declarations of the models, and raises when that fails;
    - an endpoint with [Depends(get_current_user)] is run behind that
      dependency, from the [Authorization] header of the request;
    - every value the code draws from its environment (the clock, [uuid4],
      [generate_api_key], [random.randint], [bcrypt.gensalt],
      [secrets.token_urlsafe]) is an explicit argument;
    - a Python [float] is an IEEE 754 binary64 number; a Python [int] is a [Z];
    - a [datetime] is the number of microseconds since the Unix epoch, UTC. *)

From Stdlib Require Import ZArith QArith Qminmax Lqa String List Lia.
From Stdlib Require SpecFloat.
From stdpp Require Import base decidable option list strings pretty sorting.

Local Close Scope Q_scope.
Local Open Scope string_scope.
Local Open Scope Z_scope.
Local Open Scope list_scope.

(** ** Python values *)

Module Py.

(** [s[:n]]: the first [n] characters, the whole string when it is shorter. *)
Definition slice_to (n : nat) (s : string) : string := String.substring 0 n s.

(** Truth value of a [str | None]: [None] and the empty string are falsy. *)
Definition truthy_str (o : option string) : bool :=
  match o with
  | None => false
  | Some s => negb (String.eqb s "")
  end.

(** [str(n)] and [f"{n}"] for an [int]. *)
Definition str (n : Z) : string := pretty n.

(** A [float]: an IEEE 754 binary64 number. *)
Definition float : Type := SpecFloat.spec_float.

Definition prec : Z := 53.
Definition emax : Z := 1024.

(** [float(n)] for an [int]: the nearest [float], [n] itself below 2^53 in
    absolute value. *)
Definition float_of_int (n : Z) : float :=
  match n with
  | Z0 => SpecFloat.S754_zero false
  | Zpos _ => SpecFloat.binary_normalize prec emax n 0 false
  | Zneg _ => SpecFloat.binary_normalize prec emax n 0 true
  end.

(** An [int] as the quotient [n / 1], before any rounding. *)
Definition exact (n : Z) : float :=
  match n with
  | Z0 => SpecFloat.S754_zero false
  | Zpos m => SpecFloat.S754_finite false m 0
  | Zneg m => SpecFloat.S754_finite true m 0
  end.

(** [a / b] on [int]s, [b] not 0: the [float] nearest to the quotient. *)
Definition truediv (a b : Z) : float :=
  SpecFloat.SFdiv prec emax (exact a) (exact b).

(** [x * n] for a [float] and an [int]. *)
Definition mul_int (x : float) (n : Z) : float :=
  SpecFloat.SFmul prec emax x (float_of_int n).

(** [min(x, n)] for a [float] and an [int], as the [float] a response model
    makes of it: [n] when [n < x], otherwise [x]. *)
Definition min (x : float) (n : Z) : float :=
  if SpecFloat.SFltb (float_of_int n) x then float_of_int n else x.

Inductive Exception : Type :=
| HTTPException (status_code : Z) (detail : string)
| RequestValidationError
| InvalidRequestError
| MultipleResultsFound
| IntegrityError
| AttributeError (obj attr : string)
| TypeError (callee : string)
| ValueError.

(** Strings of code points below 256, as a header value is once it is
    decoded. *)

(** [c.isspace()] *)
Definition isspace (c : Ascii.ascii) : bool :=
  let n := Ascii.nat_of_ascii c in
  ((9 <=? n) && (n <=? 13) || (28 <=? n) && (n <=? 32) || (n =? 133) || (n =? 160))%nat.

(** [s.split()]: the maximal runs of characters that are not whitespace. *)
Fixpoint split (s : string) : list string :=
  match s with
  | EmptyString => []
  | String c s' =>
      if isspace c then split s'
      else
        match s' with
        | EmptyString => [String c EmptyString]
        | String c' _ =>
            if isspace c' then String c EmptyString :: split s'
            else
              match split s' with
              | w :: ws => String c w :: ws
              | [] => [String c EmptyString]
              end
        end
  end.

(** [c.lower()] *)
Definition lower_char (c : Ascii.ascii) : Ascii.ascii :=
  let n := Ascii.nat_of_ascii c in
  if ((65 <=? n) && (n <=? 90) || (192 <=? n) && (n <=? 222) && negb (n =? 215))%nat
  then Ascii.ascii_of_nat (n + 32)
  else c.

(** [s.lower()] *)
Fixpoint lower (s : string) : string :=
  match s with
  | EmptyString => EmptyString
  | String c s' => String (lower_char c) (lower s')
  end.

(** [s.lstrip()], [s.rstrip()] and [s.strip()] *)
Fixpoint lstrip (s : string) : string :=
  match s with
  | EmptyString => EmptyString
  | String c s' => if isspace c then lstrip s' else s
  end.

Fixpoint rstrip (s : string) : string :=
  match s with
  | EmptyString => EmptyString
  | String c s' =>
      match rstrip s' with
      | EmptyString => if isspace c then EmptyString else String c EmptyString
      | kept => String c kept
      end
  end.

Definition strip (s : string) : string := rstrip (lstrip s).

(** [s.split(sep)] for a separator of one character: the pieces between the
    separators, empty ones included. *)
Fixpoint split_on (sep : Ascii.ascii) (s : string) : list string :=
  match s with
  | EmptyString => [EmptyString]
  | String c s' =>
      if Ascii.eqb c sep then EmptyString :: split_on sep s'
      else
        match split_on sep s' with
        | piece :: pieces => String c piece :: pieces
        | [] => [String c EmptyString]
        end
  end.

(** [s or default] for a [str]. *)
Definition or_str (s default : string) : string :=
  if String.eqb s "" then default else s.

(** The values of a [dict] that is returned as JSON. *)
#[warnings="-register-all"]
Inductive value : Type :=
| Bool (b : bool)
| Int (n : Z)
| Str (s : string)
| Dict (items : list (string * value)).

End Py.

(** ** [datetime] and [timedelta] *)

Module Datetime.

Definition datetime : Type := Z.
Definition timedelta : Type := Z.

Definition microseconds_per_second : Z := 1000000.
Definition microseconds_per_day : Z := 86400 * microseconds_per_second.

Definition minutes (n : Z) : timedelta := n * 60 * microseconds_per_second.
Definition hours (n : Z) : timedelta := n * 3600 * microseconds_per_second.

(** Days since the epoch of the UTC date of [t]. *)
Definition toordinal (t : datetime) : Z := t / microseconds_per_day.

(** Proleptic Gregorian date (year, month, day) of a day count. *)
Definition civil_from_days (z : Z) : Z * Z * Z :=
  let z := z + 719468 in
  let era := z / 146097 in
  let doe := z - era * 146097 in
  let yoe := (doe - doe / 1460 + doe / 36524 - doe / 146096) / 365 in
  let y := yoe + era * 400 in
  let doy := doe - (365 * yoe + yoe / 4 - yoe / 100) in
  let mp := (5 * doy + 2) / 153 in
  let d := doy - (153 * mp + 2) / 5 + 1 in
  let m := if mp <? 10 then mp + 3 else mp - 9 in
  (if m <=? 2 then y + 1 else y, m, d).

Definition day (t : datetime) : Z := snd (civil_from_days (toordinal t)).

(** [t.replace(hour=0, minute=0, second=0, microsecond=0)] *)
Definition replace_midnight (t : datetime) : datetime :=
  toordinal t * microseconds_per_day.

(** [t.replace(day=1, hour=0, minute=0, second=0, microsecond=0)] *)
Definition replace_first_of_month (t : datetime) : datetime :=
  (toordinal t - (day t - 1)) * microseconds_per_day.

End Datetime.

Import Datetime.

(** ** Models *)

(** [models/user.py] *)
Module UserRole.
Inductive t : Type := ADMIN | OWNER | MEMBER.

Definition value (r : t) : string :=
  match r with
  | ADMIN => "admin"
  | OWNER => "owner"
  | MEMBER => "member"
  end.

#[global] Instance eq_dec : EqDecision t.
Proof. solve_decision. Defined.
End UserRole.

Module User.
Record t : Type := mk {
  id : string;
  email : string;
  password_hash : option string;
  name : string;
  avatar_url : option string;
  tenant_id : option string;
  role : UserRole.t;
  google_id : option string;
  github_id : option string;
  email_verified : bool;
  email_verification_token : option string;
  email_verification_expires : option datetime;
  password_reset_token : option string;
  password_reset_expires : option datetime;
  is_active : bool;
  created_at : datetime;
  updated_at : datetime;
  last_login_at : option datetime
}.

Definition is_admin (self : t) : bool :=
  bool_decide (role self = UserRole.ADMIN).

Definition is_owner (self : t) : bool :=
  bool_decide (role self = UserRole.OWNER).

Definition can_manage_tenant (self : t) : bool :=
  bool_decide (role self ∈ [UserRole.ADMIN; UserRole.OWNER]).

Definition can_manage_billing (self : t) : bool :=
  bool_decide (role self ∈ [UserRole.ADMIN; UserRole.OWNER]).

(** Attribute assignments used by the endpoints. *)
Definition set_verification (token : option string) (expires : option datetime)
    (u : t) : t :=
  mk (id u) (email u) (password_hash u) (name u) (avatar_url u) (tenant_id u)
     (role u) (google_id u) (github_id u) (email_verified u)
     token expires
     (password_reset_token u) (password_reset_expires u) (is_active u)
     (created_at u) (updated_at u) (last_login_at u).

Definition set_password_hash (h : option string) (u : t) : t :=
  mk (id u) (email u) h (name u) (avatar_url u) (tenant_id u)
     (role u) (google_id u) (github_id u) (email_verified u)
     (email_verification_token u) (email_verification_expires u)
     (password_reset_token u) (password_reset_expires u) (is_active u)
     (created_at u) (updated_at u) (last_login_at u).

Definition set_name (n : string) (u : t) : t :=
  mk (id u) (email u) (password_hash u) n (avatar_url u) (tenant_id u)
     (role u) (google_id u) (github_id u) (email_verified u)
     (email_verification_token u) (email_verification_expires u)
     (password_reset_token u) (password_reset_expires u) (is_active u)
     (created_at u) (updated_at u) (last_login_at u).

Definition set_password_reset (token : option string) (expires : option datetime)
    (u : t) : t :=
  mk (id u) (email u) (password_hash u) (name u) (avatar_url u) (tenant_id u)
     (role u) (google_id u) (github_id u) (email_verified u)
     (email_verification_token u) (email_verification_expires u)
     token expires (is_active u)
     (created_at u) (updated_at u) (last_login_at u).

(** [onupdate=func.now()] of the [updated_at] column. *)
Definition touch (db_now : datetime) (u : t) : t :=
  mk (id u) (email u) (password_hash u) (name u) (avatar_url u) (tenant_id u)
     (role u) (google_id u) (github_id u) (email_verified u)
     (email_verification_token u) (email_verification_expires u)
     (password_reset_token u) (password_reset_expires u) (is_active u)
     (created_at u) db_now (last_login_at u).
Definition set_email_verified (v : bool) (u : t) : t :=
  mk (id u) (email u) (password_hash u) (name u) (avatar_url u) (tenant_id u)
     (role u) (google_id u) (github_id u) v
     (email_verification_token u) (email_verification_expires u)
     (password_reset_token u) (password_reset_expires u) (is_active u)
     (created_at u) (updated_at u) (last_login_at u).

Definition set_last_login_at (v : option datetime) (u : t) : t :=
  mk (id u) (email u) (password_hash u) (name u) (avatar_url u) (tenant_id u)
     (role u) (google_id u) (github_id u) (email_verified u)
     (email_verification_token u) (email_verification_expires u)
     (password_reset_token u) (password_reset_expires u) (is_active u)
     (created_at u) (updated_at u) v.

#[global] Instance eq_dec : EqDecision t.
Proof. unfold datetime. solve_decision. Defined.
End User.

(** [models/plan.py] *)
Module PlanTier.
Inductive t : Type := FREE | PRO | ENTERPRISE | CUSTOM.

Definition value (r : t) : string :=
  match r with
  | FREE => "free"
  | PRO => "pro"
  | ENTERPRISE => "enterprise"
  | CUSTOM => "custom"
  end.
End PlanTier.

Module Plan.
Record t : Type := mk {
  id : string;
  name : string;
  tier : PlanTier.t;
  description : option string;
  price_monthly_cents : Z;
  quota_daily : Z;
  quota_monthly : Z;
  rate_limit_rps : Py.float;
  rate_limit_burst : Z;
  max_api_keys : Z;
  max_routes : Z;
  cache_enabled : bool;
  analytics_enabled : bool;
  priority_support : bool;
  custom_domains : bool;
  razorpay_plan_id : option string;
  stripe_price_id : option string;
  is_active : bool;
  is_default : bool;
  created_at : datetime;
  updated_at : datetime
}.

Definition is_unlimited_daily (self : t) : bool := quota_daily self =? 0.
Definition is_unlimited_monthly (self : t) : bool := quota_monthly self =? 0.
End Plan.

(** [models/tenant.py] *)
Module Tenant.
Record t : Type := mk {
  id : string;
  name : string;
  description : option string;
  plan_id : option string;
  is_active : bool;
  created_at : datetime;
  updated_at : datetime
}.
End Tenant.

(** ** The mappers of the models *)

Module Mapper.

(** [relationship(argument, back_populates=...)], assigned to the attribute
    [key] of a mapped class. *)
Record relationship : Type := mk_relationship {
  key : string;
  argument : string;
  back_populates : option string
}.

(** A mapped class: its name, the [mapped_column]s and the [relationship]s of
    its body. *)
Record mapped_class : Type := mk_class {
  class_name : string;
  columns : list string;
  relationships : list relationship
}.

(** The properties of the mapper of a class. *)
Definition properties (c : mapped_class) : list string :=
  columns c ++ (key <$> relationships c).

(** [models/user.py] *)
Definition User_mapper : mapped_class :=
  mk_class "User"
    [ "id"; "email"; "password_hash"; "name"; "avatar_url"; "tenant_id"; "role";
      "google_id"; "github_id"; "email_verified"; "email_verification_token";
      "email_verification_expires"; "password_reset_token"; "password_reset_expires";
      "is_active"; "created_at"; "updated_at"; "last_login_at" ]
    [ mk_relationship "tenant" "Tenant" (Some "users") ].

(** [models/tenant.py] *)
Definition Tenant_mapper : mapped_class :=
  mk_class "Tenant"
    [ "id"; "name"; "description"; "plan_id"; "is_active"; "created_at"; "updated_at" ]
    [ mk_relationship "plan" "Plan" (Some "tenants");
      mk_relationship "api_keys" "ApiKey" (Some "tenant");
      mk_relationship "routes" "Route" (Some "tenant") ].

(** [models/plan.py] *)
Definition Plan_mapper : mapped_class :=
  mk_class "Plan"
    [ "id"; "name"; "tier"; "description"; "price_monthly_cents"; "quota_daily";
      "quota_monthly"; "rate_limit_rps"; "rate_limit_burst"; "max_api_keys";
      "max_routes"; "cache_enabled"; "analytics_enabled"; "priority_support";
      "custom_domains"; "razorpay_plan_id"; "stripe_price_id"; "is_active";
      "is_default"; "created_at"; "updated_at" ]
    [ mk_relationship "tenants" "Tenant" (Some "plan") ].

(** The mapped classes whose source is at hand, in the order
    [models/__init__.py] imports them.  [ApiKey], [Route] and the other
    classes of that file are not: a relationship towards one of them is
    taken to be in order. *)
Definition registry : list mapped_class := [Plan_mapper; Tenant_mapper; User_mapper].

Definition class_named (reg : list mapped_class) (name : string) : option mapped_class :=
  head (filter (λ c, class_name c = name) reg).

(** Setting up a relationship with [back_populates] looks the named property
    up in the mapper of the class the relationship points to. *)
Definition reverse_property_found (reg : list mapped_class) (r : relationship) : bool :=
  match back_populates r, class_named reg (argument r) with
  | Some property, Some target => bool_decide (property ∈ properties target)
  | _, _ => true
  end.

(** [configure_mappers()]: every relationship of every class is set up. *)
Definition configure (reg : list mapped_class) : bool :=
  forallb (λ c, forallb (reverse_property_found reg) (relationships c)) reg.

End Mapper.


(** Modelled from the spec: [models/api_key.py] ([ApiKeyStatus], [ApiKey] and
    its [is_active] property) is not part of the sources at hand.  The spec
    gives "status ∈ {active, disabled}; [is_active] derives from status"; the
    columns are the ones the portal endpoints read and write, and a new row
    starts active and never used. *)
Module ApiKeyStatus.
Inductive t : Type := ACTIVE | DISABLED.

Definition value (s : t) : string :=
  match s with
  | ACTIVE => "active"
  | DISABLED => "disabled"
  end.

#[global] Instance eq_dec : EqDecision t.
Proof. solve_decision. Defined.
End ApiKeyStatus.

Module ApiKey.
Record t : Type := mk {
  id : string;
  tenant_id : string;
  name : string;
  key : string;
  key_prefix : string;
  status : ApiKeyStatus.t;
  quota_daily : Z;
  quota_monthly : Z;
  rate_limit_rps : Py.float;
  rate_limit_burst : Z;
  created_at : datetime;
  last_used_at : option datetime
}.

Definition is_active (self : t) : bool :=
  bool_decide (status self = ApiKeyStatus.ACTIVE).

Definition set_key (v : string) (k : t) : t :=
  mk (id k) (tenant_id k) (name k) v (key_prefix k) (status k)
     (quota_daily k) (quota_monthly k) (rate_limit_rps k) (rate_limit_burst k)
     (created_at k) (last_used_at k).

Definition set_key_prefix (v : string) (k : t) : t :=
  mk (id k) (tenant_id k) (name k) (key k) v (status k)
     (quota_daily k) (quota_monthly k) (rate_limit_rps k) (rate_limit_burst k)
     (created_at k) (last_used_at k).

Definition set_status (v : ApiKeyStatus.t) (k : t) : t :=
  mk (id k) (tenant_id k) (name k) (key k) (key_prefix k) v
     (quota_daily k) (quota_monthly k) (rate_limit_rps k) (rate_limit_burst k)
     (created_at k) (last_used_at k).
End ApiKey.

(** Modelled from the spec: [models/request_log.py] is not part of the sources
    at hand.  The columns are the ones [get_usage] queries, with the value
    sets of the spec's data model ("cache_status ∈ {hit, stale, miss, bypass},
    error_type ("none" or a classified failure)"). *)
Module RequestLog.
Record t : Type := mk {
  id : string;
  tenant_id : string;
  timestamp : datetime;
  latency_ms : Z;
  cache_status : string;
  error_type : string
}.
End RequestLog.

(** [config.py]: the settings the endpoints and the e-mail service read. *)
Module Settings.
Record t : Type := mk {
  cors_origins : string;
  frontend_url : string;
  smtp_host : string;
  smtp_port : Z;
  smtp_secure : bool;
  smtp_user : string;
  smtp_pass : string;
  smtp_from_email : string
}.

Definition smtp_configured (self : t) : bool :=
  negb (String.eqb (smtp_host self) "")
  && negb (String.eqb (smtp_user self) "")
  && negb (String.eqb (smtp_pass self) "").

Definition cors_origins_list (self : t) : list string :=
  Py.strip <$> filter (λ origin, Py.strip origin ≠ "")
                 (Py.split_on (Ascii.ascii_of_nat 44) (cors_origins self)).
End Settings.

(** An e-mail handed to a background thread: recipient, subject and the link
    or code its body carries (the surrounding HTML is not modelled). *)
Record Email : Type := mkEmail {
  to_email : string;
  subject : string;
  payload : string
}.

(** ** The world an endpoint runs in *)

Record World : Type := mkWorld {
  users : list User.t;
  tenants : list Tenant.t;
  plans : list Plan.t;
  api_keys : list ApiKey.t;
  request_logs : list RequestLog.t;
  settings : Settings.t;
  outbox : list Email
}.

Definition with_users (v : list User.t) (w : World) : World :=
  mkWorld v (tenants w) (plans w) (api_keys w) (request_logs w) (settings w) (outbox w).

Definition with_tenants (v : list Tenant.t) (w : World) : World :=
  mkWorld (users w) v (plans w) (api_keys w) (request_logs w) (settings w) (outbox w).

Definition with_api_keys (v : list ApiKey.t) (w : World) : World :=
  mkWorld (users w) (tenants w) (plans w) v (request_logs w) (settings w) (outbox w).

Definition with_outbox (v : list Email) (w : World) : World :=
  mkWorld (users w) (tenants w) (plans w) (api_keys w) (request_logs w) (settings w) v.

(** ** State and exceptions *)

Definition M (A : Type) : Type := World → (Py.Exception + A) * World.

#[global] Instance M_ret : MRet M := λ A a w, (inr a, w).

#[global] Instance M_bind : MBind M := λ A B f m w,
  match m w with
  | (inl e, w') => (inl e, w')
  | (inr a, w') => f a w'
  end.

Definition raise {A : Type} (e : Py.Exception) : M A := λ w, (inl e, w).
Definition get_world : M World := λ w, (inr w, w).
Definition modify (f : World → World) : M unit := λ w, (inr tt, f w).

(** What a run produced, and the world it left. *)
Definition outcome {A : Type} (r : (Py.Exception + A) * World) : Py.Exception + A := fst r.
Definition final {A : Type} (r : (Py.Exception + A) * World) : World := snd r.

Definition raises_status {A : Type} (code : Z) (r : (Py.Exception + A) * World) : Prop :=
  ∃ detail, outcome r = inl (Py.HTTPException code detail).

(** ** The session *)

Module Session.

(** The mappers are configured on the first use of the ORM, and again on
    every later use as long as that has failed: [InvalidRequestError] when a
    relationship cannot be set up. *)
Definition configure_mappers : M unit :=
  if Mapper.configure Mapper.registry then mret tt else raise Py.InvalidRequestError.

(** [await db.execute(select(...))]: what the statement selects from the
    tables. *)
Definition execute {A : Type} (select : World → A) : M A :=
  _ ← configure_mappers;
  w ← get_world;
  mret (select w).

(** [Result.scalar_one_or_none()] *)
Definition scalar_one_or_none {A : Type} (rows : list A) : M (option A) :=
  match rows with
  | [] => mret None
  | [r] => mret (Some r)
  | _ => raise Py.MultipleResultsFound
  end.

(** The many-to-one relationships [User.tenant] and [Tenant.plan]: the row
    the foreign key names. *)
Definition tenant_of (u : User.t) : M (option Tenant.t) :=
  execute (λ w, User.tenant_id u ≫= λ tid, head (filter (λ t, Tenant.id t = tid) (tenants w))).

Definition plan_of (t : Tenant.t) : M (option Plan.t) :=
  execute (λ w, Tenant.plan_id t ≫= λ pid, head (filter (λ p, Plan.id p = pid) (plans w))).

(** The declarative constructor of a mapped class takes the attributes of the
    class as keywords and refuses any other name with a [TypeError]. *)
Definition declarative_constructor (cls : Mapper.mapped_class) (kwargs : list string)
    : M unit :=
  if bool_decide (kwargs ⊆ Mapper.properties cls) then mret tt
  else raise (Py.TypeError (Mapper.class_name cls)).

(** [cls(...)] with the keywords [kwargs]: the instance is set up by its
    mapper, then the constructor runs. *)
Definition construct (cls : Mapper.mapped_class) (kwargs : list string) : M unit :=
  _ ← configure_mappers;
  declarative_constructor cls kwargs.

(** [db.add(row); await db.flush()]: INSERT, refused on a primary key that
    is already there. *)
Definition insert_api_key (k : ApiKey.t) : M unit :=
  _ ← configure_mappers;
  w ← get_world;
  if bool_decide (ApiKey.id k ∈ ApiKey.id <$> api_keys w)
  then raise Py.IntegrityError
  else modify (with_api_keys (api_keys w ++ [k])).

Definition insert_tenant (t : Tenant.t) : M unit :=
  _ ← configure_mappers;
  w ← get_world;
  if bool_decide (Tenant.id t ∈ Tenant.id <$> tenants w)
     || bool_decide (Tenant.name t ∈ Tenant.name <$> tenants w)
  then raise Py.IntegrityError
  else modify (with_tenants (tenants w ++ [t])).

Definition insert_user (u : User.t) : M unit :=
  _ ← configure_mappers;
  w ← get_world;
  if bool_decide (User.id u ∈ User.id <$> users w)
     || bool_decide (User.email u ∈ User.email <$> users w)
  then raise Py.IntegrityError
  else modify (with_users (users w ++ [u])).

(** [await db.flush()] after attribute assignments on a loaded row:
    UPDATE ... WHERE id = <primary key>. *)
Definition update_api_key (k : ApiKey.t) : M unit :=
  _ ← configure_mappers;
  modify (λ w, with_api_keys
    ((λ r, if bool_decide (ApiKey.id r = ApiKey.id k) then k else r) <$> api_keys w) w).

Definition update_user (db_now : datetime) (u : User.t) : M unit :=
  _ ← configure_mappers;
  modify (λ w, with_users
    ((λ r, if bool_decide (User.id r = User.id u) then User.touch db_now u else r)
       <$> users w) w).

(** [await db.delete(row); await db.flush()]: DELETE ... WHERE id = <primary key>. *)
Definition delete_api_key (k : ApiKey.t) : M unit :=
  _ ← configure_mappers;
  modify (λ w, with_api_keys (filter (λ r, ApiKey.id r ≠ ApiKey.id k) (api_keys w)) w).

(** [await db.flush()] after attribute assignments on a loaded row: the
    UPDATE is emitted when some attribute has a new value, and only then. *)
Definition flush_user (db_now : datetime) (loaded u : User.t) : M unit :=
  if bool_decide (loaded = u) then mret tt else update_user db_now u.

(** [column > now] in a WHERE clause: never true of NULL. *)
Definition later_than (now : datetime) (column : option datetime) : Prop :=
  match column with
  | Some e => now < e
  | None => False
  end.

#[global] Instance later_than_dec (now : datetime) (column : option datetime) :
  Decision (later_than now column).
Proof. destruct column; simpl; apply _. Defined.

End Session.

(** A request body is validated against its model before the endpoint is
    called with the validated data: a body that fails is answered with 422
    and the endpoint does not run. *)
Definition validated {A B : Type} (validate : A → option A) (endpoint : A → M B)
    (body : A) : M B :=
  match validate body with
  | Some data => endpoint data
  | None => raise Py.RequestValidationError
  end.


(** ** [services/email.py] *)

Module EmailService.

(** [send_email]: skipped when SMTP is not configured, otherwise handed to a
    background thread; it returns at once in both cases. *)
Definition send_email (to subject payload : string) : M bool :=
  w ← get_world;
  if Settings.smtp_configured (settings w)
  then _ ← modify (with_outbox (outbox w ++ [mkEmail to subject payload])); mret true
  else mret false.

Definition send_verification_email (to token : string) : M bool :=
  w ← get_world;
  let verify_url := Settings.frontend_url (settings w) +:+ "/verify-email?token=" +:+ token in
  send_email to "Verify your Heliox account" verify_url.

Definition send_password_reset_email (to token : string) : M bool :=
  w ← get_world;
  let reset_url := Settings.frontend_url (settings w) +:+ "/reset-password?token=" +:+ token in
  send_email to "Reset your Heliox password" reset_url.

Definition send_welcome_email (to company_name : string) : M bool :=
  w ← get_world;
  let dashboard_url := Settings.frontend_url (settings w) +:+ "/portal" in
  send_email to ("Welcome to Heliox, " +:+ company_name +:+ "!") dashboard_url.

(** Everything an [EmailService] instance has: the [settings] attribute set
    by [__init__] and the methods of the class. *)
Definition attributes : list string :=
  [ "settings"; "_get_smtp_connection"; "_send_email_sync"; "send_email";
    "send_verification_email"; "send_password_reset_email"; "send_welcome_email" ].

(** [email_service.<attr>(a, b)]: the call of an attribute with two
    positional strings.  A name the instance does not have raises
    [AttributeError]; one that is there but does not take two strings
    raises [TypeError]. *)
Definition call (attr : string) (a b : string) : M bool :=
  if bool_decide (attr ∈ attributes) then
    if String.eqb attr "send_verification_email" then send_verification_email a b
    else if String.eqb attr "send_password_reset_email" then send_password_reset_email a b
    else if String.eqb attr "send_welcome_email" then send_welcome_email a b
    else raise (Py.TypeError attr)
  else raise (Py.AttributeError "EmailService" attr).

End EmailService.

(** ** [api/auth.py] *)

Module Auth.

(** [Field(..., min_length=a, max_length=b)] on a [str]. *)
Definition Field (min_length max_length : nat) (v : string) : bool :=
  (min_length <=? String.length v)%nat && (String.length v <=? max_length)%nat.

Record SignupRequest : Type := mkSignupRequest {
  sr_email : string;
  sr_password : string;
  sr_name : string;
  sr_company_name : string
}.

Record LoginRequest : Type := mkLoginRequest {
  lr_email : string;
  lr_password : string
}.

Record PasswordResetRequest : Type := mkPasswordResetRequest {
  pr_email : string
}.

Record PasswordResetConfirm : Type := mkPasswordResetConfirm {
  rc_token : string;
  rc_new_password : string
}.

Record ChangePasswordRequest : Type := mkChangePasswordRequest {
  cp_current_password : string;
  cp_new_password : string
}.

Record VerifyOtpRequest : Type := mkVerifyOtpRequest {
  vo_email : string;
  vo_otp : string
}.

Record ResendOtpRequest : Type := mkResendOtpRequest {
  ro_email : string
}.

Section Validation.

(** [EmailStr]: the address as the email-validator library normalises it,
    [None] for an address it refuses. *)
Variable EmailStr : string → option string.

Definition SignupRequest_validate (body : SignupRequest) : option SignupRequest :=
  email ← EmailStr (sr_email body);
  if Field 8 100 (sr_password body)
     && Field 1 255 (sr_name body)
     && Field 1 255 (sr_company_name body)
  then Some (mkSignupRequest email (sr_password body) (sr_name body)
               (sr_company_name body))
  else None.

Definition LoginRequest_validate (body : LoginRequest) : option LoginRequest :=
  email ← EmailStr (lr_email body);
  Some (mkLoginRequest email (lr_password body)).

Definition PasswordResetRequest_validate (body : PasswordResetRequest)
    : option PasswordResetRequest :=
  email ← EmailStr (pr_email body);
  Some (mkPasswordResetRequest email).

Definition VerifyOtpRequest_validate (body : VerifyOtpRequest) : option VerifyOtpRequest :=
  email ← EmailStr (vo_email body);
  if Field 6 6 (vo_otp body) then Some (mkVerifyOtpRequest email (vo_otp body)) else None.

Definition ResendOtpRequest_validate (body : ResendOtpRequest) : option ResendOtpRequest :=
  email ← EmailStr (ro_email body);
  Some (mkResendOtpRequest email).

End Validation.

Definition PasswordResetConfirm_validate (body : PasswordResetConfirm)
    : option PasswordResetConfirm :=
  if Field 8 100 (rc_new_password body) then Some body else None.

Definition ChangePasswordRequest_validate (body : ChangePasswordRequest)
    : option ChangePasswordRequest :=
  if Field 8 100 (cp_new_password body) then Some body else None.

Record SignupResponse : Type := mkSignupResponse {
  message : string;
  email : string;
  requires_verification : bool
}.

Record UserResponse : Type := mkUserResponse {
  ur_id : string;
  ur_email : string;
  ur_name : string;
  ur_avatar_url : option string;
  ur_role : string;
  ur_tenant_id : option string;
  ur_tenant_name : option string;
  ur_plan_name : option string;
  ur_email_verified : bool;
  ur_created_at : datetime
}.

Record TokenResponse : Type := mkTokenResponse {
  access_token : string;
  token_type : string;
  expires_in : Z;
  tr_user : UserResponse
}.

(** [generate_otp], on the value [r] that [random.randint(100000, 999999)]
    returned. *)
Definition generate_otp (r : Z) : string := Py.str r.

(** [get_current_admin], on the user [get_current_user] resolved. *)
Definition get_current_admin (user : User.t) : M User.t :=
  if negb (User.is_admin user)
  then raise (Py.HTTPException 403 "Admin access required")
  else mret user.

(** What [signup] draws from its environment. *)
Record SignupEnv : Type := mkSignupEnv {
  randint : Z;              (* random.randint(100000, 999999) *)
  now : datetime;           (* datetime.now(timezone.utc) *)
  db_now : datetime;        (* the server's now() at flush *)
  salt : string;            (* bcrypt.gensalt() *)
  tenant_uuid : string;     (* uuid4() for the new tenant *)
  user_uuid : string        (* uuid4() for the new user *)
}.

(** What [forgot_password] draws from its environment. *)
Record ForgotEnv : Type := mkForgotEnv {
  fe_token : string;        (* secrets.token_urlsafe(32) *)
  fe_now : datetime;        (* datetime.now(timezone.utc) *)
  fe_db_now : datetime      (* the server's now() at flush *)
}.

(** The two readings of the clock in [create_access_token]. *)
Record TokenEnv : Type := mkTokenEnv {
  tk_now_exp : datetime;    (* datetime.now(timezone.utc), for "exp" *)
  tk_now_iat : datetime     (* datetime.now(timezone.utc), for "iat" *)
}.

(** What an endpoint that writes a user row and issues a token draws from
    its environment. *)
Record LoginEnv : Type := mkLoginEnv {
  le_now : datetime;        (* datetime.now(timezone.utc) *)
  le_db_now : datetime;     (* the server's now() at flush *)
  le_token : TokenEnv
}.

(** What an endpoint that issues a secret by e-mail draws from its
    environment. *)
Record IssueEnv : Type := mkIssueEnv {
  ie_randint : Z;           (* random.randint(100000, 999999) *)
  ie_token : string;        (* secrets.token_urlsafe(32) *)
  ie_now : datetime;        (* datetime.now(timezone.utc) *)
  ie_db_now : datetime      (* the server's now() at flush *)
}.

(** What an endpoint that stores a new password draws from its environment. *)
Record PasswordEnv : Type := mkPasswordEnv {
  pe_salt : string;         (* bcrypt.gensalt() *)
  pe_now : datetime;        (* datetime.now(timezone.utc) *)
  pe_db_now : datetime      (* the server's now() at flush *)
}.

Definition build_user_response (user : User.t) : M UserResponse :=
  tenant ← Session.tenant_of user;
  plan ← match tenant with
         | Some tenant => Session.plan_of tenant
         | None => mret None
         end;
  mret (mkUserResponse (User.id user) (User.email user) (User.name user)
          (User.avatar_url user) (UserRole.value (User.role user)) (User.tenant_id user)
          (Tenant.name <$> tenant) (Plan.name <$> plan)
          (User.email_verified user) (User.created_at user)).

(** [get_me] *)
Definition get_me (user : User.t) : M UserResponse :=
  build_user_response user.

Section WithCrypto.

(** [bcrypt.hashpw(password, salt)] and [bcrypt.checkpw(password, hash)], on
    strings: [None] when the library raises [ValueError], as [checkpw] does
    on a hash that is not one of bcrypt's. *)
Variable bcrypt_hashpw : string → string → option string.
Variable bcrypt_checkpw : string → string → option bool.

(** [jwt.encode({"sub": sub, "exp": exp, "iat": iat}, secret_key, "HS256")],
    and [jwt.decode(token, secret_key, ["HS256"])] at a given time: [None]
    when it raises [ExpiredSignatureError] or [InvalidTokenError], otherwise
    what the payload has under "sub". *)
Variable jwt_encode : string → datetime → datetime → string.
Variable jwt_decode : datetime → string → option (option string).

Definition hash_password (salt password : string) : M string :=
  match bcrypt_hashpw password salt with
  | Some password_hash => mret password_hash
  | None => raise Py.ValueError
  end.

Definition verify_password (password password_hash : string) : M bool :=
  match bcrypt_checkpw password password_hash with
  | Some matches => mret matches
  | None => raise Py.ValueError
  end.

Definition create_access_token (env : TokenEnv) (user_id : string) (expires_hours : Z)
    : string * Z :=
  let expires_delta := hours expires_hours in
  let expires_at := tk_now_exp env + expires_delta in
  (jwt_encode user_id expires_at (tk_now_iat env),
   expires_delta / microseconds_per_second).

Definition decode_access_token (now : datetime) (token : string) : option string :=
  match jwt_decode now token with
  | Some sub => sub
  | None => None
  end.

(** [now] is the time at which the token is decoded. *)
Definition get_current_user (now : datetime) (authorization : option string) : M User.t :=
  match authorization with
  | None => raise (Py.HTTPException 401 "Not authenticated")
  | Some authorization =>
      if String.eqb authorization "" then raise (Py.HTTPException 401 "Not authenticated")
      else
        match Py.split authorization with
        | [scheme; token] =>
            if negb (String.eqb (Py.lower scheme) "bearer")
            then raise (Py.HTTPException 401 "Invalid authorization header")
            else
              let user_id := decode_access_token now token in
              if negb (Py.truthy_str user_id)
              then raise (Py.HTTPException 401 "Invalid or expired token")
              else
                result ← Session.execute
                  (λ w, filter (λ u, Some (User.id u) = user_id) (users w));
                user ← Session.scalar_one_or_none result;
                match user with
                | None => raise (Py.HTTPException 401 "User not found")
                | Some user =>
                    if negb (User.is_active user)
                    then raise (Py.HTTPException 401 "Account is disabled")
                    else mret user
                end
        | _ => raise (Py.HTTPException 401 "Invalid authorization header")
        end
  end.

(** [user: User = Depends(get_current_user)]: the user is resolved from the
    [Authorization] header of the request, then the endpoint is called. *)
Definition Depends_get_current_user {A : Type} (now : datetime)
    (authorization : option string) (endpoint : User.t → M A) : M A :=
  user ← get_current_user now authorization;
  endpoint user.

Definition signup (env : SignupEnv) (data : SignupRequest) : M SignupResponse :=
  existing ← Session.execute (λ w, filter (λ u, User.email u = sr_email data) (users w));
  existing_user ← Session.scalar_one_or_none existing;
  match existing_user with
  | Some existing_user =>
      if negb (User.email_verified existing_user) then
        let otp := generate_otp (randint env) in
        let existing_user :=
          User.set_verification (Some otp) (Some (now env + minutes 10)) existing_user in
        password_hash ← hash_password (salt env) (sr_password data);
        let existing_user := User.set_password_hash (Some password_hash) existing_user in
        let existing_user := User.set_name (sr_name data) existing_user in
        _ ← Session.update_user (db_now env) existing_user;
        _ ← EmailService.call "send_otp_email" (sr_email data) otp;
        mret (mkSignupResponse "Verification code sent to your email"
                (sr_email data) true)
      else raise (Py.HTTPException 400 "Email already registered")
  | None =>
      existing_tenant ← Session.execute
        (λ w, filter (λ t, Tenant.name t = sr_company_name data) (tenants w));
      existing_tenant ← Session.scalar_one_or_none existing_tenant;
      if bool_decide (is_Some existing_tenant)
      then raise (Py.HTTPException 400 "Company name already taken")
      else
        default_plan ← Session.execute
          (λ w, filter (λ p, Plan.is_default p = true) (plans w));
        plan ← Session.scalar_one_or_none default_plan;
        _ ← Session.construct Mapper.Tenant_mapper ["name"; "plan_id"; "billing_email"];
        let tenant :=
          Tenant.mk (tenant_uuid env) (sr_company_name data) None
                    (Plan.id <$> plan) true (db_now env) (db_now env) in
        _ ← Session.insert_tenant tenant;
        let otp := generate_otp (randint env) in
        password_hash ← hash_password (salt env) (sr_password data);
        _ ← Session.construct Mapper.User_mapper
              [ "email"; "password_hash"; "name"; "tenant_id"; "role"; "email_verified";
                "email_verification_token"; "email_verification_expires" ];
        let user :=
          User.mk (user_uuid env) (sr_email data) (Some password_hash)
                  (sr_name data) None (Some (Tenant.id tenant)) UserRole.OWNER
                  None None false (Some otp) (Some (now env + minutes 10))
                  None None true (db_now env) (db_now env) None in
        _ ← Session.insert_user user;
        _ ← EmailService.call "send_otp_email" (sr_email data) otp;
        mret (mkSignupResponse "Verification code sent to your email"
                (sr_email data) true)
  end.

Definition verify_otp (env : LoginEnv) (data : VerifyOtpRequest) : M TokenResponse :=
  result ← Session.execute (λ w, filter (λ u, User.email u = vo_email data) (users w));
  user ← Session.scalar_one_or_none result;
  match user with
  | None => raise (Py.HTTPException 400 "User not found")
  | Some user =>
      if User.email_verified user
      then raise (Py.HTTPException 400 "Email already verified")
      else if negb (Py.truthy_str (User.email_verification_token user))
      then raise (Py.HTTPException 400 "No verification pending")
      else if from_option (λ e, e <? le_now env) false (User.email_verification_expires user)
      then raise (Py.HTTPException 400
                    "Verification code expired. Please request a new one.")
      else if bool_decide (User.email_verification_token user ≠ Some (vo_otp data))
      then raise (Py.HTTPException 400 "Invalid verification code")
      else
        let verified :=
          User.set_verification None None (User.set_email_verified true user) in
        _ ← Session.flush_user (le_db_now env) user verified;
        tenant ← Session.tenant_of verified;
        _ ← match tenant with
            | Some tenant =>
                _ ← EmailService.call "send_welcome_email"
                      (User.email verified) (Tenant.name tenant);
                mret tt
            | None => mret tt
            end;
        let '(access_token, expires_in) :=
          create_access_token (le_token env) (User.id verified) 24 in
        user_response ← build_user_response verified;
        mret (mkTokenResponse access_token "bearer" expires_in user_response)
  end.

Definition resend_otp (env : IssueEnv) (data : ResendOtpRequest)
    : M (list (string * string)) :=
  result ← Session.execute (λ w, filter (λ u, User.email u = ro_email data) (users w));
  user ← Session.scalar_one_or_none result;
  match user with
  | None =>
      mret [("message", "If the email is registered, a verification code will be sent")]
  | Some user =>
      if User.email_verified user
      then mret [("message", "Email already verified. You can login.")]
      else
        let otp := generate_otp (ie_randint env) in
        let pending :=
          User.set_verification (Some otp) (Some (ie_now env + minutes 10)) user in
        _ ← Session.flush_user (ie_db_now env) user pending;
        _ ← EmailService.call "send_otp_email" (User.email pending) otp;
        mret [("message", "Verification code sent to your email")]
  end.

Definition login (env : LoginEnv) (data : LoginRequest) : M TokenResponse :=
  result ← Session.execute (λ w, filter (λ u, User.email u = lr_email data) (users w));
  user ← Session.scalar_one_or_none result;
  match user with
  | None => raise (Py.HTTPException 401 "Invalid email or password")
  | Some user =>
      if negb (Py.truthy_str (User.password_hash user))
      then raise (Py.HTTPException 401 "Please login with your OAuth provider")
      else
        matches ← verify_password (lr_password data) (default "" (User.password_hash user));
        if negb matches
        then raise (Py.HTTPException 401 "Invalid email or password")
        else if negb (User.is_active user)
        then raise (Py.HTTPException 401 "Account is disabled")
        else if negb (User.email_verified user)
                && bool_decide (User.role user ≠ UserRole.ADMIN)
        then raise (Py.HTTPException 403
          "Please verify your email before logging in. Check your inbox for the verification code.")
        else
          let seen := User.set_last_login_at (Some (le_now env)) user in
          _ ← Session.flush_user (le_db_now env) user seen;
          let '(access_token, expires_in) :=
            create_access_token (le_token env) (User.id seen) 24 in
          user_response ← build_user_response seen;
          mret (mkTokenResponse access_token "bearer" expires_in user_response)
  end.

Definition change_password (env : PasswordEnv) (data : ChangePasswordRequest)
    (user : User.t) : M (list (string * string)) :=
  if negb (Py.truthy_str (User.password_hash user))
  then raise (Py.HTTPException 400 "Cannot change password for OAuth account")
  else
    matches ← verify_password (cp_current_password data)
                (default "" (User.password_hash user));
    if negb matches
    then raise (Py.HTTPException 401 "Current password is incorrect")
    else
      password_hash ← hash_password (pe_salt env) (cp_new_password data);
      let changed := User.set_password_hash (Some password_hash) user in
      _ ← Session.flush_user (pe_db_now env) user changed;
      mret [("message", "Password changed successfully")].

Definition forgot_password (env : ForgotEnv) (data : PasswordResetRequest)
    : M (list (string * string)) :=
  result ← Session.execute (λ w, filter (λ u, User.email u = pr_email data) (users w));
  user ← Session.scalar_one_or_none result;
  _ ← match user with
      | Some user =>
          if Py.truthy_str (User.password_hash user) then
            let token := fe_token env in
            let user :=
              User.set_password_reset (Some token) (Some (fe_now env + hours 1)) user in
            _ ← Session.update_user (fe_db_now env) user;
            _ ← EmailService.call "send_password_reset_email" (User.email user) token;
            mret tt
          else mret tt
      | None => mret tt
      end;
  mret [("message", "If your email is registered, you will receive a password reset link")].

Definition reset_password (env : PasswordEnv) (data : PasswordResetConfirm)
    : M (list (string * string)) :=
  result ← Session.execute
    (λ w, filter (λ u, User.password_reset_token u = Some (rc_token data)
                       ∧ Session.later_than (pe_now env) (User.password_reset_expires u))
            (users w));
  user ← Session.scalar_one_or_none result;
  match user with
  | None => raise (Py.HTTPException 400 "Invalid or expired reset token")
  | Some user =>
      password_hash ← hash_password (pe_salt env) (rc_new_password data);
      let changed :=
        User.set_password_reset None None
          (User.set_password_hash (Some password_hash) user) in
      _ ← Session.flush_user (pe_db_now env) user changed;
      mret [("message", "Password reset successfully")]
  end.

(** [refresh_token] *)
Definition refresh_token (env : TokenEnv) (user : User.t) : M TokenResponse :=
  let '(access_token, expires_in) := create_access_token env (User.id user) 24 in
  user_response ← build_user_response user;
  mret (mkTokenResponse access_token "bearer" expires_in user_response).

(** [now] and [db_now] are the clock of the endpoint and of the server. *)
Definition verify_email (now db_now : datetime) (token : string)
    : M (list (string * string)) :=
  result ← Session.execute
    (λ w, filter (λ u, User.email_verification_token u = Some token
                       ∧ Session.later_than now (User.email_verification_expires u))
            (users w));
  user ← Session.scalar_one_or_none result;
  match user with
  | None => raise (Py.HTTPException 400 "Invalid or expired verification token")
  | Some user =>
      let verified :=
        User.set_verification None None (User.set_email_verified true user) in
      _ ← Session.flush_user db_now user verified;
      mret [("message", "Email verified successfully")]
  end.

Definition resend_verification (env : IssueEnv) (user : User.t)
    : M (list (string * string)) :=
  if User.email_verified user
  then mret [("message", "Email already verified")]
  else
    let verification_token := ie_token env in
    let pending :=
      User.set_verification (Some verification_token) (Some (ie_now env + hours 24)) user in
    _ ← Session.flush_user (ie_db_now env) user pending;
    _ ← EmailService.call "send_verification_email" (User.email pending) verification_token;
    mret [("message", "Verification email sent")].

End WithCrypto.

(** What the SMTP conversation of [test_email] comes to: the message is
    sent, or the server refuses the login, or something else is raised on
    the way, with the name of its class; [str_e] is [str(e)]. *)
Inductive SmtpOutcome : Type :=
| Sent
| SMTPAuthenticationError (str_e : string)
| OtherException (type_name str_e : string).

Definition test_email (conversation : SmtpOutcome) : M Py.value :=
  w ← get_world;
  let settings := settings w in
  if negb (Settings.smtp_configured settings) then
    mret (Py.Dict
      [ ("success", Py.Bool false);
        ("error", Py.Str "SMTP not configured");
        ("config", Py.Dict
           [ ("smtp_host", Py.Str (Py.or_str (Settings.smtp_host settings) "(not set)"));
             ("smtp_port", Py.Int (Settings.smtp_port settings));
             ("smtp_user", Py.Str (Py.or_str (Settings.smtp_user settings) "(not set)"));
             ("smtp_from_email",
              Py.Str (Py.or_str (Settings.smtp_from_email settings) "(not set)")) ]) ])
  else
    match conversation with
    | Sent =>
        mret (Py.Dict
          [ ("success", Py.Bool true);
            ("message", Py.Str ("Test email sent to " +:+ Settings.smtp_user settings));
            ("config", Py.Dict
               [ ("smtp_host", Py.Str (Settings.smtp_host settings));
                 ("smtp_port", Py.Int (Settings.smtp_port settings));
                 ("smtp_user", Py.Str (Settings.smtp_user settings)) ]) ])
    | SMTPAuthenticationError str_e =>
        mret (Py.Dict
          [ ("success", Py.Bool false);
            ("error", Py.Str ("Authentication failed: " +:+ str_e));
            ("hint", Py.Str "Check SMTP_USER and SMTP_PASS. For Gmail, use an App Password.") ])
    | OtherException type_name str_e =>
        mret (Py.Dict
          [ ("success", Py.Bool false);
            ("error", Py.Str (type_name +:+ ": " +:+ str_e));
            ("config", Py.Dict
               [ ("smtp_host", Py.Str (Settings.smtp_host settings));
                 ("smtp_port", Py.Int (Settings.smtp_port settings)) ]) ])
    end.

End Auth.

(** ** [api/portal.py] *)

Module Portal.

Record TenantInfo : Type := mkTenantInfo {
  ti_id : string;
  ti_name : string;
  ti_description : option string;
  ti_plan_name : option string;
  ti_plan_tier : option string;
  ti_api_key_count : Z;
  ti_route_count : Z;
  ti_max_api_keys : Z;
  ti_max_routes : Z;
  ti_quota_daily : Z;
  ti_quota_monthly : Z;
  ti_created_at : datetime
}.

Record PortalApiKey : Type := mkPortalApiKey {
  id : string;
  name : string;
  key_prefix : string;
  key : option string;
  status : string;
  is_active : bool;
  quota_daily : Z;
  quota_monthly : Z;
  rate_limit_rps : option Py.float;
  created_at : datetime;
  last_used_at : option datetime
}.

Record CreateApiKeyRequest : Type := mkCreateApiKeyRequest {
  car_name : string
}.

Definition CreateApiKeyRequest_validate (body : CreateApiKeyRequest)
    : option CreateApiKeyRequest :=
  if Auth.Field 1 255 (car_name body) then Some body else None.

Record UsageSummary : Type := mkUsageSummary {
  daily_requests : Z;
  monthly_requests : Z;
  daily_limit : Z;
  monthly_limit : Z;
  daily_percent : Py.float;
  monthly_percent : Py.float;
  cache_hit_rate : Py.float;
  avg_latency_ms : Py.float;
  error_rate : Py.float
}.

Record PlanInfo : Type := mkPlanInfo {
  pi_id : string;
  pi_name : string;
  pi_tier : string;
  pi_description : option string;
  pi_price_monthly_cents : Z;
  pi_quota_daily : Z;
  pi_quota_monthly : Z;
  pi_rate_limit_rps : Py.float;
  pi_max_api_keys : Z;
  pi_max_routes : Z;
  pi_cache_enabled : bool;
  pi_analytics_enabled : bool;
  pi_priority_support : bool;
  pi_is_current : bool
}.

Definition require_tenant (user : User.t) : M Tenant.t :=
  tenant ← Session.tenant_of user;
  match tenant with
  | None => raise (Py.HTTPException 400 "No organization associated with your account")
  | Some tenant => mret tenant
  end.

(** [select(func.count(ApiKey.id)).where(ApiKey.tenant_id == tenant_id)] *)
Definition count_api_keys (tenant_id : string) (w : World) : Z :=
  Z.of_nat (length (filter (λ k, ApiKey.tenant_id k = tenant_id) (api_keys w))).

(** [get_my_tenant].  The routes table ([models/route.py]) is not part of the
    sources at hand: [routes] is the number its count query returns.
    [tier_has_value] is [hasattr(plan.tier, 'value')]: true of a [PlanTier]
    member, false of the plain [str] a [String] column is read back as. *)
Definition get_my_tenant (tier_has_value : bool) (routes : Z) (user : User.t)
    : M TenantInfo :=
  tenant ← require_tenant user;
  key_count ← Session.execute (count_api_keys (Tenant.id tenant));
  route_count ← Session.execute (λ _, routes);
  plan ← Session.plan_of tenant;
  let max_keys := from_option Plan.max_api_keys 2 plan in
  let max_routes := from_option Plan.max_routes 5 plan in
  let quota_daily := from_option Plan.quota_daily 1000 plan in
  let quota_monthly := from_option Plan.quota_monthly 10000 plan in
  mret (mkTenantInfo (Tenant.id tenant) (Tenant.name tenant) (Tenant.description tenant)
          (Some (from_option Plan.name "Free" plan))
          (Some (match plan with
                 | Some p => if tier_has_value then PlanTier.value (Plan.tier p) else "free"
                 | None => "free"
                 end))
          key_count route_count max_keys max_routes quota_daily quota_monthly
          (Tenant.created_at tenant)).

(** [select(func.count(RequestLog.id)).where(tenant_id == ..).where(timestamp >= since)] *)
Definition count_requests (tenant_id : string) (since : datetime) (w : World) : Z :=
  Z.of_nat (length (filter
    (λ r, RequestLog.tenant_id r = tenant_id ∧ since ≤ RequestLog.timestamp r)
    (request_logs w))).

(** The row of the statistics query over the last 24 hours: [total],
    [cache_hits] and [errors]. *)
Definition count_recent (tenant_id : string) (since : datetime) (w : World) : Z * Z * Z :=
  let recent := filter
    (λ r, RequestLog.tenant_id r = tenant_id ∧ since ≤ RequestLog.timestamp r)
    (request_logs w) in
  (Z.of_nat (length recent),
   Z.of_nat (length (filter (λ r, RequestLog.cache_status r ∈ ["hit"; "stale"]) recent)),
   Z.of_nat (length (filter (λ r, RequestLog.error_type r ≠ "none") recent))).

(** [get_usage].  [now] is [datetime.now(timezone.utc)]; [avg_latency] is
    what the database returns for [func.avg(RequestLog.latency_ms)] over the
    last 24 hours, as the [float] the endpoint makes of it, [None] for
    NULL. *)
Definition get_usage (now : datetime) (avg_latency : option Py.float) (user : User.t)
    : M UsageSummary :=
  tenant ← require_tenant user;
  let today_start := replace_midnight now in
  let month_start := replace_first_of_month now in
  daily_requests ← Session.execute (count_requests (Tenant.id tenant) today_start);
  monthly_requests ← Session.execute (count_requests (Tenant.id tenant) month_start);
  plan ← Session.plan_of tenant;
  let daily_limit := from_option Plan.quota_daily 1000 plan in
  let monthly_limit := from_option Plan.quota_monthly 10000 plan in
  let daily_percent :=
    if 0 <? daily_limit
    then Py.mul_int (Py.truediv daily_requests daily_limit) 100
    else Py.float_of_int 0 in
  let monthly_percent :=
    if 0 <? monthly_limit
    then Py.mul_int (Py.truediv monthly_requests monthly_limit) 100
    else Py.float_of_int 0 in
  stats ← Session.execute (count_recent (Tenant.id tenant) (now - hours 24));
  let '(total, cache_hits, errors) := stats in
  let cache_hit_rate :=
    if 0 <? total then Py.truediv cache_hits total else Py.float_of_int 0 in
  let error_rate :=
    if 0 <? total then Py.truediv errors total else Py.float_of_int 0 in
  mret (mkUsageSummary daily_requests monthly_requests daily_limit monthly_limit
          (Py.min daily_percent 100) (Py.min monthly_percent 100)
          cache_hit_rate
          (default (Py.float_of_int 0) avg_latency)
          error_rate).

(** The response built from a row; [key] is filled on creation and rotation
    only. *)
Definition response (api_key : ApiKey.t) (key : option string) : PortalApiKey :=
  mkPortalApiKey (ApiKey.id api_key) (ApiKey.name api_key) (ApiKey.key_prefix api_key)
    key (ApiKeyStatus.value (ApiKey.status api_key)) (ApiKey.is_active api_key)
    (ApiKey.quota_daily api_key) (ApiKey.quota_monthly api_key)
    (Some (ApiKey.rate_limit_rps api_key))
    (ApiKey.created_at api_key) (ApiKey.last_used_at api_key).

(** [ORDER BY created_at DESC]: newest first.  Among rows of one [created_at]
    the order is the one the merge sort gives; the database may return them
    in any order. *)
Definition newest_first (a b : ApiKey.t) : Prop :=
  ApiKey.created_at b ≤ ApiKey.created_at a.

#[global] Instance newest_first_dec (a b : ApiKey.t) : Decision (newest_first a b).
Proof. unfold newest_first. apply _. Defined.

Definition list_api_keys (user : User.t) : M (list PortalApiKey) :=
  tenant ← require_tenant user;
  keys ← Session.execute
    (λ w, merge_sort newest_first
            (filter (λ k, ApiKey.tenant_id k = Tenant.id tenant) (api_keys w)));
  mret ((λ key, response key None) <$> keys).

(** What [create_api_key] draws from its environment. *)
Record CreateEnv : Type := mkCreateEnv {
  new_key : string;         (* generate_api_key() *)
  new_uuid : string;        (* the primary key of the new row *)
  db_now : datetime         (* the server's now() at flush *)
}.

Definition create_api_key (env : CreateEnv) (data : CreateApiKeyRequest) (user : User.t)
    : M PortalApiKey :=
  tenant ← require_tenant user;
  plan ← Session.plan_of tenant;
  current_count ← Session.execute (count_api_keys (Tenant.id tenant));
  let max_keys := from_option Plan.max_api_keys 2 plan in
  if (0 <? max_keys) && (max_keys <=? current_count) then
    raise (Py.HTTPException 403
      ("Plan limit reached: Your plan allows max " +:+ Py.str max_keys
       +:+ " API keys. Upgrade to create more."))
  else
    let quota_daily := from_option Plan.quota_daily 1000 plan in
    let quota_monthly := from_option Plan.quota_monthly 10000 plan in
    let rate_limit_rps := from_option Plan.rate_limit_rps (Py.float_of_int 10) plan in
    let rate_limit_burst := from_option Plan.rate_limit_burst 20 plan in
    let key := new_key env in
    (* ApiKey(tenant_id=..., name=..., key=..., ...) *)
    _ ← Session.configure_mappers;
    let api_key :=
      ApiKey.mk (new_uuid env) (Tenant.id tenant) (car_name data) key (Py.slice_to 10 key)
                ApiKeyStatus.ACTIVE quota_daily quota_monthly rate_limit_rps
                rate_limit_burst (db_now env) None in
    _ ← Session.insert_api_key api_key;
    mret (response api_key (Some (ApiKey.key api_key))).

(** [select(ApiKey).where(ApiKey.id == key_id).where(ApiKey.tenant_id == tenant.id)] *)
Definition select_api_key (key_id tenant_id : string) (w : World) : list ApiKey.t :=
  filter (λ k, ApiKey.id k = key_id ∧ ApiKey.tenant_id k = tenant_id) (api_keys w).

(** [new_key] is the value [generate_api_key()] returned. *)
Definition rotate_api_key (new_key : string) (key_id : string) (user : User.t)
    : M PortalApiKey :=
  tenant ← require_tenant user;
  result ← Session.execute (select_api_key key_id (Tenant.id tenant));
  api_key ← Session.scalar_one_or_none result;
  match api_key with
  | None => raise (Py.HTTPException 404 "API key not found")
  | Some api_key =>
      let api_key := ApiKey.set_key new_key api_key in
      let api_key := ApiKey.set_key_prefix (Py.slice_to 10 new_key) api_key in
      _ ← Session.update_api_key api_key;
      mret (response api_key (Some (ApiKey.key api_key)))
  end.

Definition toggle_api_key (key_id : string) (user : User.t) : M PortalApiKey :=
  tenant ← require_tenant user;
  result ← Session.execute (select_api_key key_id (Tenant.id tenant));
  api_key ← Session.scalar_one_or_none result;
  match api_key with
  | None => raise (Py.HTTPException 404 "API key not found")
  | Some api_key =>
      let api_key :=
        if bool_decide (ApiKey.status api_key = ApiKeyStatus.ACTIVE)
        then ApiKey.set_status ApiKeyStatus.DISABLED api_key
        else ApiKey.set_status ApiKeyStatus.ACTIVE api_key in
      _ ← Session.update_api_key api_key;
      mret (response api_key None)
  end.

Definition delete_api_key (key_id : string) (user : User.t) : M (list (string * string)) :=
  tenant ← require_tenant user;
  result ← Session.execute (select_api_key key_id (Tenant.id tenant));
  key ← Session.scalar_one_or_none result;
  match key with
  | None => raise (Py.HTTPException 404 "API key not found")
  | Some key =>
      _ ← Session.delete_api_key key;
      mret [("message", "API key deleted")]
  end.

(** [ORDER BY price_monthly_cents ASC]: cheapest first, ties as for
    [newest_first]. *)
Definition cheapest_first (a b : Plan.t) : Prop :=
  Plan.price_monthly_cents a ≤ Plan.price_monthly_cents b.

#[global] Instance cheapest_first_dec (a b : Plan.t) : Decision (cheapest_first a b).
Proof. unfold cheapest_first. apply _. Defined.

Definition plan_info (current_plan_id : option string) (plan : Plan.t) : PlanInfo :=
  mkPlanInfo (Plan.id plan) (Plan.name plan) (PlanTier.value (Plan.tier plan))
    (Plan.description plan) (Plan.price_monthly_cents plan)
    (Plan.quota_daily plan) (Plan.quota_monthly plan) (Plan.rate_limit_rps plan)
    (Plan.max_api_keys plan) (Plan.max_routes plan)
    (Plan.cache_enabled plan) (Plan.analytics_enabled plan) (Plan.priority_support plan)
    (bool_decide (Some (Plan.id plan) = current_plan_id)).

Definition list_plans (user : User.t) : M (list PlanInfo) :=
  tenant ← require_tenant user;
  let current_plan_id := Tenant.plan_id tenant in
  plans ← Session.execute
    (λ w, merge_sort cheapest_first (filter (λ p, Plan.is_active p = true) (plans w)));
  mret (plan_info current_plan_id <$> plans).

End Portal.


(** ** Rate limiter *)

Module RateLimiter.

(** Modelled from the spec: the rate limiter is not part of the sources at
    hand.  Section 4.1 gives the bucket state
    "{tokens: float, capacity: burst, refill_rate: rps, last_refill: timestamp}";
    times are in seconds. *)
Record Bucket : Type := mkBucket {
  tokens : Q;
  capacity : Q;
  refill_rate : Q;
  last_refill : Q
}.

(** Modelled from the spec: section 4.1 and 7, a request is admitted or it is
    rejected with "a [RateLimited] outcome carrying a [retry_after]". *)
Inductive Outcome : Type :=
| Allowed
| RateLimited (retry_after : Q).

(** Modelled from the spec: section 4.1, "advance
    [tokens = min(capacity, tokens + elapsed_seconds * refill_rate)]". *)
Definition advance (now : Q) (b : Bucket) : Q :=
  Qmin (capacity b) (tokens b + (now - last_refill b) * refill_rate b)%Q.

(** Modelled from the spec: section 4.1, "if [tokens >= 1], decrement and
    admit; else reject with a [RateLimited] outcome carrying a [retry_after]
    computed as [(1 - tokens) / refill_rate]". *)
Definition request (now : Q) (b : Bucket) : Outcome * Bucket :=
  let t := advance now b in
  if Qle_bool 1 t
  then (Allowed, mkBucket (t - 1)%Q (capacity b) (refill_rate b) now)
  else (RateLimited ((1 - t) / refill_rate b)%Q,
        mkBucket t (capacity b) (refill_rate b) now).

(** Modelled from the spec: the bucket of a key that has not been seen yet,
    [capacity] being the burst and [refill_rate] the rps of section 4.1; it
    starts full, as the concrete scenario of section 8 has it. *)
Definition new_bucket (rps : Q) (burst : Z) (now : Q) : Bucket :=
  mkBucket (inject_Z burst) (inject_Z burst) rps now.

(** Modelled from the spec: the requests of one key, served in order at the
    given times. *)
Fixpoint serve (times : list Q) (b : Bucket) : list Outcome * Bucket :=
  match times with
  | [] => ([], b)
  | now :: rest =>
      let '(o, b') := request now b in
      let '(os, b'') := serve rest b' in
      (o :: os, b'')
  end.

End RateLimiter.

(** ** Statements and sample data *)

(** A key with this id belongs to the tenant of the user. *)
Definition key_belongs (w : World) (u : User.t) (key_id : string) : Prop :=
  ∃ k, k ∈ api_keys w ∧ ApiKey.id k = key_id
       ∧ User.tenant_id u = Some (ApiKey.tenant_id k).

(** A request that was turned away with a positive [retry_after]. *)
Definition rejected (o : RateLimiter.Outcome) : Prop :=
  ∃ r, o = RateLimiter.RateLimited r ∧ (0 < r)%Q.

(** A string without whitespace, as a token is. *)
Definition no_space (s : string) : Prop :=
  Forall (λ c, Py.isspace c = false) (list_ascii_of_string s).

(** A decimal digit. *)
Definition digit (c : Ascii.ascii) : Prop :=
  (48 ≤ Ascii.nat_of_ascii c ≤ 57)%nat.

(** What [get_current_user] comes to for a header of the form
    "Bearer <token>": 401 for a token that is refused, and for one that is
    accepted the error the query for its user raises. *)
Definition bearer_outcome (jwt_decode : datetime → string → option (option string))
    (now : datetime) (token : string) : Py.Exception :=
  if Py.truthy_str (Auth.decode_access_token jwt_decode now token)
  then Py.InvalidRequestError
  else Py.HTTPException 401 "Invalid or expired token".

(** The relationships of a registry that cannot be set up, with their
    classes. *)
Definition unresolved (reg : list Mapper.mapped_class) : list (string * string) :=
  c ← reg;
  r ← filter (λ r, Mapper.reverse_property_found reg r = false) (Mapper.relationships c);
  [(Mapper.class_name c, Mapper.key r)].

(** The settings with another SMTP password. *)
Definition with_smtp_pass (v : string) (s : Settings.t) : Settings.t :=
  Settings.mk (Settings.cors_origins s) (Settings.frontend_url s) (Settings.smtp_host s)
    (Settings.smtp_port s) (Settings.smtp_secure s) (Settings.smtp_user s) v
    (Settings.smtp_from_email s).

Definition with_settings (v : Settings.t) (w : World) : World :=
  mkWorld (users w) (tenants w) (plans w) (api_keys w) (request_logs w) v (outbox w).

(** [d.get(key)] on a [dict] that is returned as JSON. *)
Definition dict_get (key : string) (d : Py.value) : option Py.value :=
  match d with
  | Py.Dict items => snd <$> head (filter (λ item, fst item = key) items)
  | _ => None
  end.

(** A string that holds the character. *)
Definition contains (c : Ascii.ascii) (s : string) : Prop :=
  c ∈ list_ascii_of_string s.

(** The queue of e-mails once a [send_*] method of the e-mail service has
    handed [mail] over. *)
Definition queued (w : World) (mail : Email) : list Email :=
  if Settings.smtp_configured (settings w) then outbox w ++ [mail] else outbox w.

Module Sample.

(** The "Free" and "Enterprise" entries of [PREDEFINED_PLANS]. *)
Definition free : Plan.t :=
  Plan.mk "0f1e2d3c-0000-4000-8000-00000000f4ee" "Free" PlanTier.FREE
    (Some "Perfect for testing and small projects")
    0 1000 10000 (Py.float_of_int 10) 20 2 5 true false false false None None
    true true 0 0.

Definition enterprise : Plan.t :=
  Plan.mk "0f1e2d3c-0000-4000-8000-0000000e4712" "Enterprise" PlanTier.ENTERPRISE
    (Some "For large-scale production workloads")
    19900 0 0 (Py.float_of_int 1000) 2000 0 0 true true true true None None
    true false 0 0.

Definition acme : Tenant.t :=
  Tenant.mk "7e4a4700-0000-4000-8000-00000000ac3e" "Acme" None (Some (Plan.id free))
    true 0 0.

Definition globex : Tenant.t :=
  Tenant.mk "7e4a4700-0000-4000-8000-0000000910be" "Globex" None None true 0 0.

Definition initech : Tenant.t :=
  Tenant.mk "7e4a4700-0000-4000-8000-000000141ec4" "Initech" None
    (Some (Plan.id enterprise)) true 0 0.

(** A verified owner, an unverified owner, a member who signs in with
    Google, and the administrator that [bootstrap.py] inserts without a
    tenant. *)
Definition alice : User.t :=
  User.mk "05e40000-0000-4000-8000-0000000a11ce" "alice@acme-widgets.io"
    (Some "$2b$12$hash.of.the.password.of.alice") "Alice" None
    (Some (Tenant.id acme)) UserRole.OWNER None None true None None None None true 0 0 None.

Definition bob : User.t :=
  User.mk "05e40000-0000-4000-8000-000000000b0b" "bob@globex-mail.io"
    (Some "$2b$12$hash.of.the.password.of.bob") "Bob" None
    (Some (Tenant.id globex)) UserRole.OWNER None None false (Some "123456") (Some 500)
    None None true 0 0 None.

Definition carol : User.t :=
  User.mk "05e40000-0000-4000-8000-0000000ca401" "carol@initech-labs.io" None "Carol" None
    (Some (Tenant.id initech)) UserRole.MEMBER (Some "google-1084") None true
    None None None None true 0 0 None.

Definition root : User.t :=
  User.mk "05e40000-0000-4000-8000-00000000ad31" "admin@heliox.dev"
    (Some "$2b$12$hash.of.the.password.of.admin") "Heliox Admin" None
    None UserRole.ADMIN None None true None None None None true 0 0 None.

Definition key1 : ApiKey.t :=
  ApiKey.mk "4e100000-0000-4000-8000-000000000001" (Tenant.id acme) "build"
    "hx_aaaaaaaaaaaaaaaa" "hx_aaaaaaa" ApiKeyStatus.ACTIVE 1000 10000
    (Py.float_of_int 10) 20 100 None.

Definition key2 : ApiKey.t :=
  ApiKey.mk "4e100000-0000-4000-8000-000000000002" (Tenant.id acme) "deploy"
    "hx_bbbbbbbbbbbbbbbb" "hx_bbbbbbb" ApiKeyStatus.DISABLED 1000 10000
    (Py.float_of_int 10) 20 200 (Some 300).

Definition key3 : ApiKey.t :=
  ApiKey.mk "4e100000-0000-4000-8000-000000000003" (Tenant.id globex) "main"
    "hx_cccccccccccccccc" "hx_ccccccc" ApiKeyStatus.ACTIVE 1000 10000
    (Py.float_of_int 10) 20 300 None.

(** 2026-11-03 12:34:56 UTC. *)
Definition noon : datetime := 1793709296000000.

Definition logs : list RequestLog.t :=
  [ RequestLog.mk "r-1" (Tenant.id acme) (noon - hours 1) 12 "hit" "none";
    RequestLog.mk "r-2" (Tenant.id acme) (noon - hours 2) 30 "miss" "timeout";
    RequestLog.mk "r-3" (Tenant.id acme) (noon - hours 30) 20 "miss" "none";
    RequestLog.mk "r-4" (Tenant.id globex) (noon - hours 1) 15 "stale" "none";
    RequestLog.mk "r-5" (Tenant.id acme) (noon - hours 24 * 40) 18 "miss" "none" ].

Definition smtp : Settings.t :=
  Settings.mk "http://localhost:3000, https://app.heliox.dev" "http://localhost:3000"
    "smtp.heliox.dev" 587 false "mailer" "mailer-pass" "".

Definition world : World :=
  mkWorld [alice; bob; carol; root] [acme; globex; initech] [free; enterprise]
          [key1; key2; key3] logs smtp [].

(** Three tokens that PyJWT accepts at [noon], with the ids of Alice, Bob
    and Carol as their subjects; it refuses every other token. *)
Definition alice_token : string := "header.subject-alice.signature".
Definition bob_token : string := "header.subject-bob.signature".
Definition carol_token : string := "header.subject-carol.signature".

Definition jwt_decode (now : datetime) (token : string) : option (option string) :=
  if String.eqb token alice_token then Some (Some (User.id alice))
  else if String.eqb token bob_token then Some (Some (User.id bob))
  else if String.eqb token carol_token then Some (Some (User.id carol))
  else None.

(** The request of an endpoint behind [Depends(get_current_user)], sent at
    [noon] with the header "Authorization: Bearer <token>". *)
Definition request {A : Type} (token : string) (endpoint : User.t → M A)
    : (Py.Exception + A) * World :=
  Auth.Depends_get_current_user jwt_decode noon (Some ("Bearer " +:+ token)) endpoint world.

Definition create_env : Portal.CreateEnv :=
  Portal.mkCreateEnv "hx_dddddddddddddddd" "4e100000-0000-4000-8000-000000000004" noon.

Definition create_request : Portal.CreateApiKeyRequest :=
  Portal.mkCreateApiKeyRequest "ci".

(** Someone signs up with the address of the administrator, and Bob signs up
    a second time. *)
Definition signup_as_admin : Auth.SignupRequest :=
  Auth.mkSignupRequest "admin@heliox.dev" "correct horse battery" "Mallory" "Initrode".

Definition signup_again : Auth.SignupRequest :=
  Auth.mkSignupRequest "bob@globex-mail.io" "hunter2hunter2" "Robert" "Globex".

(** A password reset for an address that no user has, and for Alice's. *)
Definition forgot_unknown : Auth.PasswordResetRequest :=
  Auth.mkPasswordResetRequest "nobody@heliox.dev".

Definition forgot_known : Auth.PasswordResetRequest :=
  Auth.mkPasswordResetRequest "alice@acme-widgets.io".

End Sample.

(** * Properties *)

(** A decidable statement about concrete data, settled by evaluation. *)
Ltac by_computation := apply (bool_decide_unpack _); vm_compute; exact I.

(** ** Running a computation *)

Lemma run_bind {A B : Type} (m : M A) (f : A → M B) (w : World) :
  (m ≫= f) w = match m w with
               | (inl e, w') => (inl e, w')
               | (inr a, w') => f a w'
               end.
Proof. reflexivity. Qed.

Lemma run_ret {A : Type} (a : A) (w : World) : (mret a : M A) w = (inr a, w).
Proof. reflexivity. Qed.

Lemma run_raise {A : Type} (e : Py.Exception) (w : World) :
  (raise e : M A) w = (inl e, w).
Proof. reflexivity. Qed.

Lemma raises_status_inl {A : Type} (code : Z) (e : Py.Exception) (w : World) :
  raises_status (A := A) code (inl e, w) ↔ ∃ detail, e = Py.HTTPException code detail.
Proof.
  unfold raises_status, outcome; simpl. split; intros [d Hd]; exists d; congruence.
Qed.

Lemma raises_status_inr {A : Type} (code : Z) (a : A) (w : World) :
  ¬ raises_status code (inr a, w).
Proof. intros [d Hd]. discriminate Hd. Qed.

(** ** Python values *)

Lemma slice_to_length (n : nat) (s : string) :
  String.length (Py.slice_to n s) = Nat.min n (String.length s).
Proof.
  unfold Py.slice_to. revert s. induction n as [| n IH]; intros [| c s]; simpl; auto.
Qed.

Lemma slice_to_prefix (n : nat) (s : string) :
  String.prefix (Py.slice_to n s) s = true.
Proof.
  unfold Py.slice_to. revert s. induction n as [| n IH]; intros [| c s]; simpl; auto.
  destruct (Ascii.ascii_dec c c); [apply IH | congruence].
Qed.

(** [70 / 1000 * 100] is 7.000000000000001, the [float] next above 7,
    [1 / 3 * 100] is 33.33333333333333 and [3 / 7 * 100] is
    42.857142857142854; [min] caps at 100; an [int] above 2^53 is rounded
    to the nearest even [float]. *)
Example percent_of_seventy :
  Py.mul_int (Py.truediv 70 1000) 100 = SpecFloat.SFsucc Py.prec Py.emax (Py.float_of_int 7)
  ∧ Py.mul_int (Py.truediv 1 3) 100 = SpecFloat.S754_finite false 4691249611844266 (-47)
  ∧ Py.mul_int (Py.truediv 3 7) 100 = SpecFloat.S754_finite false 6031606643799771 (-47)
  ∧ Py.min (Py.mul_int (Py.truediv 70 1000) 100) 100
    = SpecFloat.SFsucc Py.prec Py.emax (Py.float_of_int 7)
  ∧ Py.min (Py.mul_int (Py.truediv 1500 1000) 100) 100 = Py.float_of_int 100
  ∧ Py.truediv 7 7 = Py.float_of_int 1
  ∧ Py.truediv 9007199254740995 1 = Py.float_of_int 9007199254740996.
Proof. repeat split; vm_compute; reflexivity. Qed.

(** ** Calendar *)

Example first_of_month_2026_11_03 :
  (* 2026-11-03 12:34:56 UTC and 2026-11-01 00:00:00 UTC *)
  replace_first_of_month 1793709296000000 = 1793491200000000
  ∧ replace_midnight 1793709296000000 = 1793664000000000.
Proof. split; reflexivity. Qed.

Example first_of_month_leap_day :
  (* 2024-02-29 23:59:59 UTC and 2024-02-01 00:00:00 UTC *)
  replace_first_of_month 1709251199000000 = 1706745600000000.
Proof. reflexivity. Qed.

Example civil_from_days_epoch :
  civil_from_days 0 = (1970, 1, 1) ∧ civil_from_days 19782 = (2024, 2, 29)
  ∧ civil_from_days 11016 = (2000, 2, 29) ∧ civil_from_days (-1) = (1969, 12, 31).
Proof. repeat split; reflexivity. Qed.

(** ** The mappers *)

(** [Tenant] has no property [users] for [User.tenant] to populate. *)
Lemma Tenant_has_no_users : "users" ∉ Mapper.properties Mapper.Tenant_mapper.
Proof. by_computation. Qed.

Lemma mappers_not_configured : Mapper.configure Mapper.registry = false.
Proof. reflexivity. Qed.

Lemma configure_mappers_run (w : World) :
  Session.configure_mappers w = (inl Py.InvalidRequestError, w).
Proof. unfold Session.configure_mappers. rewrite mappers_not_configured. reflexivity. Qed.

Lemma execute_run {A : Type} (select : World → A) (w : World) :
  Session.execute select w = (inl Py.InvalidRequestError, w).
Proof. unfold Session.execute. rewrite run_bind, configure_mappers_run. reflexivity. Qed.

Lemma tenant_of_run (u : User.t) (w : World) :
  Session.tenant_of u w = (inl Py.InvalidRequestError, w).
Proof. unfold Session.tenant_of. apply execute_run. Qed.

Lemma require_tenant_run (u : User.t) (w : World) :
  Portal.require_tenant u w = (inl Py.InvalidRequestError, w).
Proof. unfold Portal.require_tenant. rewrite run_bind, tenant_of_run. reflexivity. Qed.

Lemma unresolved_nil (reg reg' : list Mapper.mapped_class) :
  forallb (λ c, forallb (Mapper.reverse_property_found reg) (Mapper.relationships c)) reg'
    = true
  ↔ (c ← reg';
     r ← filter (λ r, Mapper.reverse_property_found reg r = false) (Mapper.relationships c);
     [(Mapper.class_name c, Mapper.key r)]) = [].
Proof.
  induction reg' as [| c reg' IH]; [split; reflexivity |].
  cbn [forallb]. rewrite andb_true_iff, IH. clear IH.
  change (mbind ?f (c :: reg')) with (f c ++ mbind f reg').
  rewrite app_nil. apply and_iff_compat_r.
  induction (Mapper.relationships c) as [| r rs IH]; [split; reflexivity |].
  cbn [forallb]. rewrite andb_true_iff, IH. clear IH.
  destruct (Mapper.reverse_property_found reg r) eqn:Hr.
  - rewrite filter_cons_False by (rewrite Hr; discriminate). tauto.
  - rewrite filter_cons_True by exact Hr.
    split; [intros [Hf _]; discriminate Hf | intros Hnil; discriminate Hnil].
Qed.


(** ** The Authorization header *)

Lemma no_space_cons (c : Ascii.ascii) (s : string) :
  no_space (String c s) ↔ Py.isspace c = false ∧ no_space s.
Proof.
  unfold no_space. cbn [list_ascii_of_string].
  apply (Forall_cons (λ a, Py.isspace a = false)).
Qed.

Lemma split_cons (c : Ascii.ascii) (s : string) :
  Py.split (String c s) =
  if Py.isspace c then Py.split s
  else match s with
       | EmptyString => [String c EmptyString]
       | String c' _ =>
           if Py.isspace c' then String c EmptyString :: Py.split s
           else match Py.split s with
                | w :: ws => String c w :: ws
                | [] => [String c EmptyString]
                end
       end.
Proof. destruct s; reflexivity. Qed.

(** A word followed by whitespace is the first part of the split. *)
Lemma split_word_then (word rest : string) (c : Ascii.ascii) :
  no_space word → word ≠ "" → Py.isspace c = true →
  Py.split (word +:+ String c rest) = word :: Py.split rest.
Proof.
  intros Hword Hne Hc. induction word as [| a word IH]; [contradiction |].
  apply no_space_cons in Hword as [Ha Hword].
  change (String a word +:+ String c rest) with (String a (word +:+ String c rest)).
  rewrite split_cons, Ha.
  destruct word as [| b word].
  - change ("" +:+ String c rest) with (String c rest). cbn iota.
    rewrite Hc, split_cons, Hc. reflexivity.
  - pose proof Hword as Hb. apply no_space_cons in Hb as [Hb _].
    rewrite IH by (auto; discriminate).
    change (String b word +:+ String c rest) with (String b (word +:+ String c rest)).
    cbn iota. rewrite Hb. reflexivity.
Qed.

(** A word is the one part of its split. *)
Lemma split_word (word : string) :
  no_space word → word ≠ "" → Py.split word = [word].
Proof.
  intros Hword Hne. induction word as [| a word IH]; [contradiction |].
  apply no_space_cons in Hword as [Ha Hword].
  rewrite split_cons, Ha.
  destruct word as [| b word]; [reflexivity |].
  pose proof Hword as Hb. apply no_space_cons in Hb as [Hb _].
  cbn iota. rewrite Hb, IH by (auto; discriminate). reflexivity.
Qed.

(** Two words with a space between them are the two parts of the split. *)
Lemma split_two_words (scheme token : string) :
  no_space scheme → scheme ≠ "" → no_space token → token ≠ "" →
  Py.split (scheme +:+ " " +:+ token) = [scheme; token].
Proof.
  intros Hscheme Hne Htoken Hne'.
  change (" " +:+ token) with (String (Ascii.ascii_of_nat 32) token).
  rewrite split_word_then; [| assumption | assumption | reflexivity].
  rewrite split_word by assumption. reflexivity.
Qed.

(** ** The current user *)

Section CurrentUser.

Variable jwt_decode : datetime → string → option (option string).

(** [get_current_user] ends in a 401 or, for a header of two parts with the
    scheme "bearer" and a token with a subject, in the error of the
    mappers; it writes nothing. *)
Lemma get_current_user_run (now : datetime) (authorization : option string) (w : World) :
  ∃ e, Auth.get_current_user jwt_decode now authorization w = (inl e, w)
       ∧ ((∃ detail, e = Py.HTTPException 401 detail)
          ∨ (e = Py.InvalidRequestError
             ∧ ∃ header scheme token user_id,
                 authorization = Some header
                 ∧ Py.split header = [scheme; token]
                 ∧ Py.lower scheme = "bearer"
                 ∧ jwt_decode now token = Some (Some user_id)
                 ∧ user_id ≠ "")).
Proof.
  unfold Auth.get_current_user, Auth.decode_access_token.
  destruct authorization as [header |];
    [| eexists; split; [reflexivity | left; eauto]].
  destruct (String.eqb header ""); [eexists; split; [reflexivity | left; eauto] |].
  destruct (Py.split header) as [| scheme [| token [| extra parts]]] eqn:Hsplit;
    try (eexists; split; [reflexivity | left; eauto]).
  destruct (String.eqb_spec (Py.lower scheme) "bearer") as [Hscheme | _];
    cbn [negb]; [| eexists; split; [reflexivity | left; eauto]].
  destruct (jwt_decode now token) as [[user_id |] |] eqn:Hjwt;
    cbn [Py.truthy_str negb]; try (eexists; split; [reflexivity | left; eauto]).
  destruct (String.eqb_spec user_id "") as [-> | Hid]; cbn [negb];
    [eexists; split; [reflexivity | left; eauto] |].
  rewrite run_bind, execute_run.
  eexists. split; [reflexivity |]. right. split; [reflexivity |].
  exists header, scheme, token, user_id. auto.
Qed.

(** An endpoint behind the dependency ends as the dependency does. *)
Lemma depends_run {A : Type} (now : datetime) (authorization : option string)
    (endpoint : User.t → M A) (w : World) :
  ∃ e, Auth.Depends_get_current_user jwt_decode now authorization endpoint w = (inl e, w)
       ∧ Auth.get_current_user jwt_decode now authorization w = (inl e, w)
       ∧ (e = Py.InvalidRequestError ∨ ∃ detail, e = Py.HTTPException 401 detail).
Proof.
  destruct (get_current_user_run now authorization w) as (e & Hrun & He).
  exists e. unfold Auth.Depends_get_current_user. rewrite run_bind, Hrun.
  split; [reflexivity |]. split; [reflexivity |].
  destruct He as [Hd | [-> _]]; auto.
Qed.

Lemma depends_never_status {A : Type} (code : Z) (now : datetime)
    (authorization : option string) (endpoint : User.t → M A) (w : World) :
  code ≠ 401 →
  ¬ raises_status code
      (Auth.Depends_get_current_user jwt_decode now authorization endpoint w).
Proof.
  intros Hcode.
  destruct (depends_run now authorization endpoint w) as (e & -> & _ & He).
  rewrite raises_status_inl. intros [d ->].
  destruct He as [He | [d' He]]; [discriminate He | congruence].
Qed.

(** X23: [get_current_user] authenticates nobody and writes nothing: every
    header is answered with a 401 or with the error of the mappers, the
    latter exactly for a header of two parts, the first "bearer" in any
    case of letters and the second a token that is accepted and has a
    subject. *)
Theorem get_current_user_never_authenticates
    (now : datetime) (authorization : option string) (w : World) :
  final (Auth.get_current_user jwt_decode now authorization w) = w
  ∧ (∀ user, outcome (Auth.get_current_user jwt_decode now authorization w) ≠ inr user)
  ∧ (raises_status 401 (Auth.get_current_user jwt_decode now authorization w)
     ∨ outcome (Auth.get_current_user jwt_decode now authorization w)
       = inl Py.InvalidRequestError)
  ∧ (outcome (Auth.get_current_user jwt_decode now authorization w)
       = inl Py.InvalidRequestError
     ↔ ∃ header scheme token user_id,
         authorization = Some header
         ∧ Py.split header = [scheme; token]
         ∧ Py.lower scheme = "bearer"
         ∧ jwt_decode now token = Some (Some user_id)
         ∧ user_id ≠ "").
Proof.
  destruct (get_current_user_run now authorization w) as (e & Hrun & He).
  split; [rewrite Hrun; reflexivity |].
  split; [intros user; rewrite Hrun; discriminate |].
  split.
  - destruct He as [[d ->] | [-> _]]; [left | right]; rewrite Hrun; [| reflexivity].
    apply raises_status_inl. eauto.
  - split.
    + intros Hout. rewrite Hrun in Hout. cbn [outcome fst] in Hout.
      destruct He as [[d ->] | [_ Hheader]]; [discriminate Hout | exact Hheader].
    + intros (header & scheme & token & user_id & -> & Hsplit & Hscheme & Hjwt & Hid).
      unfold Auth.get_current_user, Auth.decode_access_token.
      destruct (String.eqb_spec header "") as [-> | _]; [discriminate Hsplit |].
      rewrite Hsplit, Hscheme, Hjwt.
      change (String.eqb "bearer" "bearer") with true. cbn [negb Py.truthy_str].
      destruct (String.eqb_spec user_id "") as [-> | _]; [contradiction |].
      cbn [negb]. rewrite run_bind, execute_run. reflexivity.
Qed.

(** X24: a header "<scheme> <token>" whose scheme is "bearer" in any case of
    letters and whose token has no whitespace gets past the checks of the
    header: it is answered with 401 when the token is refused, and otherwise
    reaches the query for the user, which raises the error of the
    mappers. *)
Theorem bearer_header_reaches_query (now : datetime) (scheme token : string) (w : World) :
  Py.lower scheme = "bearer" → no_space scheme → no_space token → token ≠ "" →
  Auth.get_current_user jwt_decode now (Some (scheme +:+ " " +:+ token)) w
  = (inl (bearer_outcome jwt_decode now token), w).
Proof.
  intros Hscheme Hs Htoken Hne.
  assert (Hne' : scheme ≠ "") by (intros ->; discriminate Hscheme).
  unfold Auth.get_current_user, bearer_outcome.
  rewrite (split_two_words scheme token) by assumption.
  destruct (String.eqb_spec (scheme +:+ " " +:+ token) "") as [Hempty | _].
  { destruct scheme; [contradiction | discriminate Hempty]. }
  rewrite Hscheme. change (String.eqb "bearer" "bearer") with true. cbn [negb].
  destruct (Py.truthy_str (Auth.decode_access_token jwt_decode now token)); cbn [negb].
  - rewrite run_bind, execute_run. reflexivity.
  - reflexivity.
Qed.

(** X25: an endpoint behind [Depends(get_current_user)] never runs: whatever
    the endpoint, the request ends with the error of the dependency, a 401
    or the error of the mappers, returns nothing and writes nothing.  The
    eight endpoints of the portal and [get_me], [change_password],
    [refresh_token] and [resend_verification] are of that kind. *)
Theorem depends_current_user_blocks {A : Type} (now : datetime)
    (authorization : option string) (endpoint : User.t → M A) (w : World) :
  final (Auth.Depends_get_current_user jwt_decode now authorization endpoint w) = w
  ∧ (∀ answer,
       outcome (Auth.Depends_get_current_user jwt_decode now authorization endpoint w)
       ≠ inr answer)
  ∧ (∃ e, outcome (Auth.get_current_user jwt_decode now authorization w) = inl e
          ∧ outcome (Auth.Depends_get_current_user jwt_decode now authorization
                       endpoint w) = inl e)
  ∧ (raises_status 401
       (Auth.Depends_get_current_user jwt_decode now authorization endpoint w)
     ∨ outcome (Auth.Depends_get_current_user jwt_decode now authorization endpoint w)
       = inl Py.InvalidRequestError).
Proof.
  destruct (depends_run now authorization endpoint w) as (e & Hrun & Huser & He).
  rewrite Hrun, Huser. split; [reflexivity |].
  split; [intros answer; discriminate |].
  split; [exists e; split; reflexivity |].
  destruct He as [-> | [d ->]]; [right; reflexivity | left].
  apply raises_status_inl. eauto.
Qed.

End CurrentUser.

(** A header in capitals, with a token that is accepted. *)
Lemma bearer_header_reaches_query_witness :
  (Py.lower "BEARER" = "bearer" ∧ no_space "BEARER"
   ∧ no_space Sample.alice_token ∧ Sample.alice_token ≠ "")
  ∧ Auth.get_current_user Sample.jwt_decode Sample.noon
      (Some ("BEARER" +:+ " " +:+ Sample.alice_token)) Sample.world
    = (inl Py.InvalidRequestError, Sample.world).
Proof.
  assert (H : Py.lower "BEARER" = "bearer" ∧ no_space "BEARER"
              ∧ no_space Sample.alice_token ∧ Sample.alice_token ≠ "").
  { split; [reflexivity |]. split; [by_computation |]. split; [by_computation |].
    discriminate. }
  split; [exact H |].
  destruct H as (H1 & H2 & H3 & H4).
  apply (bearer_header_reaches_query Sample.jwt_decode Sample.noon "BEARER"
           Sample.alice_token Sample.world H1 H2 H3 H4).
Defined.

(** ** One-time codes *)

Lemma pretty_N_char_digit (x : N) : digit (pretty_N_char x).
Proof. unfold digit, pretty_N_char. repeat case_match; vm_compute; lia. Qed.

Lemma div_ten_bounds (lo hi x : N) :
  (10 * lo ≤ x < 10 * hi)%N → (lo ≤ x / 10 < hi)%N.
Proof.
  intros [Hlo Hhi]. split.
  - apply N.div_le_lower_bound; [discriminate | exact Hlo].
  - apply N.Div0.div_lt_upper_bound. exact Hhi.
Qed.

(** A number of six digits is written with six digits. *)
Lemma pretty_six_digits (n : N) :
  (100000 ≤ n ≤ 999999)%N →
  ∃ c1 c2 c3 c4 c5 c6,
    pretty n = String c1 (String c2 (String c3 (String c4 (String c5 (String c6 "")))))
    ∧ Forall digit [c1; c2; c3; c4; c5; c6].
Proof.
  intros Hn.
  pose proof (div_ten_bounds 10000 100000 n) as H1.
  pose proof (div_ten_bounds 1000 10000 (n / 10)%N) as H2.
  pose proof (div_ten_bounds 100 1000 (n / 10 / 10)%N) as H3.
  pose proof (div_ten_bounds 10 100 (n / 10 / 10 / 10)%N) as H4.
  pose proof (div_ten_bounds 1 10 (n / 10 / 10 / 10 / 10)%N) as H5.
  pose proof (div_ten_bounds 0 1 (n / 10 / 10 / 10 / 10 / 10)%N) as H6.
  unfold pretty, pretty_N. destruct (decide (n = 0%N)) as [-> | _]; [lia |].
  do 6 (rewrite pretty_N_go_step by lia).
  replace (n / 10 / 10 / 10 / 10 / 10 / 10)%N with 0%N by lia.
  rewrite pretty_N_go_0.
  eexists _, _, _, _, _, _. split; [reflexivity |].
  repeat (apply List.Forall_cons; [apply pretty_N_char_digit |]). apply List.Forall_nil.
Qed.

(** X27: a code that [generate_otp] makes of a number between 100000 and
    999999, the range it draws from, has six characters, all of them
    digits, and so passes the [min_length=6, max_length=6] of
    [VerifyOtpRequest.otp]. *)
Theorem generate_otp_six_digits (r : Z) :
  100000 ≤ r ≤ 999999 →
  String.length (Auth.generate_otp r) = 6%nat
  ∧ Forall digit (list_ascii_of_string (Auth.generate_otp r))
  ∧ Auth.Field 6 6 (Auth.generate_otp r) = true.
Proof.
  intros Hr. unfold Auth.generate_otp, Py.str.
  destruct r as [| p | p]; [lia | | lia].
  change (pretty (Z.pos p)) with (pretty (N.pos p)).
  destruct (pretty_six_digits (N.pos p)) as (c1 & c2 & c3 & c4 & c5 & c6 & -> & Hdigits);
    [lia |].
  split; [reflexivity |]. split; [exact Hdigits | reflexivity].
Qed.

Lemma generate_otp_six_digits_witness :
  100000 ≤ 654321 ≤ 999999
  ∧ String.length (Auth.generate_otp 654321) = 6%nat
  ∧ Forall digit (list_ascii_of_string (Auth.generate_otp 654321))
  ∧ Auth.Field 6 6 (Auth.generate_otp 654321) = true.
Proof.
  split; [lia |]. apply (generate_otp_six_digits 654321). lia.
Defined.

(** ** The e-mail service *)

Lemma with_outbox_same (w : World) : with_outbox (outbox w) w = w.
Proof. destruct w; reflexivity. Qed.

Lemma send_email_run (to subject payload : string) (w : World) :
  EmailService.send_email to subject payload w
  = (inr (Settings.smtp_configured (settings w)),
     with_outbox (queued w (mkEmail to subject payload)) w).
Proof.
  unfold EmailService.send_email, queued.
  cbv [mbind M_bind get_world mret M_ret modify].
  destruct (Settings.smtp_configured (settings w)); [reflexivity |].
  rewrite with_outbox_same. reflexivity.
Qed.


(** ** Keys of another tenant *)

(** C1: a request for the key of another tenant is not answered with 404:
    Alice, of Acme, asks to rotate, toggle and delete a key of Globex, and
    the query for the user her token names raises the error of the mappers
    before the endpoint is entered; whatever the header, the key and the
    tables, none of the three requests is ever answered with 404. *)
Theorem key_operations_mapper_error :
  ¬ key_belongs Sample.world Sample.alice (ApiKey.id Sample.key3)
  ∧ Sample.request Sample.alice_token
      (Portal.rotate_api_key "hx_eeeeeeeeeeeeeeee" (ApiKey.id Sample.key3))
    = (inl Py.InvalidRequestError, Sample.world)
  ∧ Sample.request Sample.alice_token (Portal.toggle_api_key (ApiKey.id Sample.key3))
    = (inl Py.InvalidRequestError, Sample.world)
  ∧ Sample.request Sample.alice_token (Portal.delete_api_key (ApiKey.id Sample.key3))
    = (inl Py.InvalidRequestError, Sample.world)
  ∧ ∀ jwt_decode now authorization new_key key_id w,
      ¬ raises_status 404
          (Auth.Depends_get_current_user jwt_decode now authorization
             (Portal.rotate_api_key new_key key_id) w)
      ∧ ¬ raises_status 404
            (Auth.Depends_get_current_user jwt_decode now authorization
               (Portal.toggle_api_key key_id) w)
      ∧ ¬ raises_status 404
            (Auth.Depends_get_current_user jwt_decode now authorization
               (Portal.delete_api_key key_id) w).
Proof.
  split.
  { intros (k & Hin & Hid & Htenant).
    repeat (apply elem_of_cons in Hin as [-> | Hin]);
      [discriminate Hid | discriminate Hid | discriminate Htenant |].
    apply elem_of_nil in Hin. exact Hin. }
  split; [reflexivity |]. split; [reflexivity |]. split; [reflexivity |].
  intros jwt_decode now authorization new_key key_id w.
  repeat split; apply depends_never_status; discriminate.
Qed.

(** ** Roles *)

(** C7: [can_manage_tenant] and [can_manage_billing] hold exactly for the roles
    admin and owner, and [get_current_admin] raises HTTP 403 for every user
    whose role is not admin and returns the user as it is otherwise. *)
Theorem role_capabilities (u : User.t) (w : World) :
  (User.can_manage_tenant u = true
   ↔ User.role u = UserRole.ADMIN ∨ User.role u = UserRole.OWNER)
  ∧ (User.can_manage_billing u = true
     ↔ User.role u = UserRole.ADMIN ∨ User.role u = UserRole.OWNER)
  ∧ Auth.get_current_admin u w =
      if bool_decide (User.role u = UserRole.ADMIN)
      then (inr u, w)
      else (inl (Py.HTTPException 403 "Admin access required"), w).
Proof.
  unfold User.can_manage_tenant, User.can_manage_billing, Auth.get_current_admin,
    User.is_admin.
  rewrite !bool_decide_eq_true, !elem_of_cons, elem_of_nil.
  repeat split; try tauto.
  destruct (bool_decide (User.role u = UserRole.ADMIN)); reflexivity.
Qed.

(** ** Creating a key *)


(** C3: a request for a new key is neither refused with 403 at the limit of
    the plan nor served below it: Acme has the two keys its plan allows and
    Globex, without a plan, one of two, and the requests of Alice and of Bob
    both end in the error of the mappers; whatever the request and the
    tables, the answer is never 403 and no key is added. *)
Theorem create_api_key_never_limited :
  Portal.count_api_keys (Tenant.id Sample.acme) Sample.world
    = Plan.max_api_keys Sample.free
  ∧ Tenant.plan_id Sample.globex = None
  ∧ Portal.count_api_keys (Tenant.id Sample.globex) Sample.world = 1
  ∧ Sample.request Sample.alice_token
      (Portal.create_api_key Sample.create_env Sample.create_request)
    = (inl Py.InvalidRequestError, Sample.world)
  ∧ Sample.request Sample.bob_token
      (Portal.create_api_key Sample.create_env Sample.create_request)
    = (inl Py.InvalidRequestError, Sample.world)
  ∧ ∀ jwt_decode now authorization env data w,
      ¬ raises_status 403
          (Auth.Depends_get_current_user jwt_decode now authorization
             (Portal.create_api_key env data) w)
      ∧ final (Auth.Depends_get_current_user jwt_decode now authorization
                 (Portal.create_api_key env data) w) = w.
Proof.
  split; [reflexivity |]. split; [reflexivity |]. split; [reflexivity |].
  split; [reflexivity |]. split; [reflexivity |].
  intros jwt_decode now authorization env data w.
  split; [apply depends_never_status; discriminate |].
  destruct (depends_run jwt_decode now authorization (Portal.create_api_key env data) w)
    as (e & -> & _).
  reflexivity.
Qed.

(** ** Usage *)

(** C4: [get_usage] reports no percentages: Alice asks for the usage of
    Acme, and the query for the user her token names raises the error of the
    mappers; whatever the request and the tables, no summary is
    returned. *)
Theorem get_usage_mapper_error :
  Sample.request Sample.alice_token
    (Portal.get_usage Sample.noon (Some (Py.float_of_int 21)))
  = (inl Py.InvalidRequestError, Sample.world)
  ∧ ∀ jwt_decode now authorization clock avg_latency w summary,
      outcome (Auth.Depends_get_current_user jwt_decode now authorization
                 (Portal.get_usage clock avg_latency) w) ≠ inr summary.
Proof.
  split; [reflexivity |].
  intros jwt_decode now authorization clock avg_latency w summary.
  destruct (depends_run jwt_decode now authorization
              (Portal.get_usage clock avg_latency) w) as (e & -> & _).
  discriminate.
Qed.

(** ** Rotating and toggling a key *)

(** C5: no key is rotated: Alice asks to rotate a key of her own tenant, and
    the query for the user her token names raises the error of the mappers;
    the key keeps its secret and its prefix; whatever the request and the
    tables, [rotate_api_key] never succeeds and writes nothing. *)
Theorem rotate_api_key_mapper_error :
  key_belongs Sample.world Sample.alice (ApiKey.id Sample.key1)
  ∧ Sample.request Sample.alice_token
      (Portal.rotate_api_key "hx_eeeeeeeeeeeeeeee" (ApiKey.id Sample.key1))
    = (inl Py.InvalidRequestError, Sample.world)
  ∧ Sample.key1 ∈ api_keys Sample.world
  ∧ ∀ jwt_decode now authorization new_key key_id w,
      (∀ rotated,
         outcome (Auth.Depends_get_current_user jwt_decode now authorization
                    (Portal.rotate_api_key new_key key_id) w) ≠ inr rotated)
      ∧ final (Auth.Depends_get_current_user jwt_decode now authorization
                 (Portal.rotate_api_key new_key key_id) w) = w.
Proof.
  split.
  { exists Sample.key1. split; [left |]. split; reflexivity. }
  split; [reflexivity |]. split; [left |].
  intros jwt_decode now authorization new_key key_id w.
  destruct (depends_run jwt_decode now authorization
              (Portal.rotate_api_key new_key key_id) w) as (e & -> & _).
  split; [intros rotated; discriminate | reflexivity].
Qed.

(** C6: no key is toggled: Alice asks to toggle an active key of her own
    tenant, twice, and both requests end in the error of the mappers with
    the key still active; whatever the request and the tables,
    [toggle_api_key] never succeeds and writes nothing. *)
Theorem toggle_api_key_mapper_error :
  key_belongs Sample.world Sample.alice (ApiKey.id Sample.key1)
  ∧ ApiKey.status Sample.key1 = ApiKeyStatus.ACTIVE
  ∧ Sample.request Sample.alice_token (Portal.toggle_api_key (ApiKey.id Sample.key1))
    = (inl Py.InvalidRequestError, Sample.world)
  ∧ Auth.Depends_get_current_user Sample.jwt_decode Sample.noon
      (Some ("Bearer " +:+ Sample.alice_token))
      (Portal.toggle_api_key (ApiKey.id Sample.key1))
      (final (Sample.request Sample.alice_token
                (Portal.toggle_api_key (ApiKey.id Sample.key1))))
    = (inl Py.InvalidRequestError, Sample.world)
  ∧ ∀ jwt_decode now authorization key_id w,
      (∀ toggled,
         outcome (Auth.Depends_get_current_user jwt_decode now authorization
                    (Portal.toggle_api_key key_id) w) ≠ inr toggled)
      ∧ final (Auth.Depends_get_current_user jwt_decode now authorization
                 (Portal.toggle_api_key key_id) w) = w.
Proof.
  split.
  { exists Sample.key1. split; [left |]. split; reflexivity. }
  split; [reflexivity |]. split; [reflexivity |]. split; [reflexivity |].
  intros jwt_decode now authorization key_id w.
  destruct (depends_run jwt_decode now authorization
              (Portal.toggle_api_key key_id) w) as (e & -> & _).
  split; [intros toggled; discriminate | reflexivity].
Qed.

(** ** Accounts *)

Section Accounts.

Variable EmailStr : string → option string.
Variable bcrypt_hashpw : string → string → option string.
Variable bcrypt_checkpw : string → string → option bool.
Variable jwt_encode : string → datetime → datetime → string.

Lemma signup_run (env : Auth.SignupEnv) (data : Auth.SignupRequest) (w : World) :
  Auth.signup bcrypt_hashpw env data w = (inl Py.InvalidRequestError, w).
Proof. unfold Auth.signup. rewrite run_bind, execute_run. reflexivity. Qed.

Lemma forgot_password_run (env : Auth.ForgotEnv) (data : Auth.PasswordResetRequest)
    (w : World) :
  Auth.forgot_password env data w = (inl Py.InvalidRequestError, w).
Proof. unfold Auth.forgot_password. rewrite run_bind, execute_run. reflexivity. Qed.

(** C9: signing up with an address that is taken gets neither the 400 of a
    verified user nor the fresh code of an unverified one: the request with
    the address of the administrator, who is verified, and the second
    request of Bob, who is not, both pass the bounds of [SignupRequest] and
    end in the error of the mappers at the first query, as [signup] does
    on every request; nothing is written and no e-mail is queued.  Behind
    that query, the call that is to send the code names a method the e-mail
    service does not have. *)
Theorem signup_mapper_error (env : Auth.SignupEnv) :
  (Sample.root ∈ users Sample.world
   ∧ User.email Sample.root = Auth.sr_email Sample.signup_as_admin
   ∧ User.email_verified Sample.root = true)
  ∧ (Sample.bob ∈ users Sample.world
     ∧ User.email Sample.bob = Auth.sr_email Sample.signup_again
     ∧ User.email_verified Sample.bob = false)
  ∧ validated (Auth.SignupRequest_validate EmailStr) (Auth.signup bcrypt_hashpw env)
      Sample.signup_as_admin Sample.world
    = (inl (match EmailStr "admin@heliox.dev" with
            | Some _ => Py.InvalidRequestError
            | None => Py.RequestValidationError
            end), Sample.world)
  ∧ validated (Auth.SignupRequest_validate EmailStr) (Auth.signup bcrypt_hashpw env)
      Sample.signup_again Sample.world
    = (inl (match EmailStr "bob@globex-mail.io" with
            | Some _ => Py.InvalidRequestError
            | None => Py.RequestValidationError
            end), Sample.world)
  ∧ (∀ data w, Auth.signup bcrypt_hashpw env data w = (inl Py.InvalidRequestError, w))
  ∧ (∀ to otp w, EmailService.call "send_otp_email" to otp w
                 = (inl (Py.AttributeError "EmailService" "send_otp_email"), w)).
Proof.
  split.
  { split; [| split; reflexivity]. do 3 right. left. }
  split.
  { split; [| split; reflexivity]. right. left. }
  split.
  { unfold validated, Auth.SignupRequest_validate.
    change (Auth.sr_email Sample.signup_as_admin) with "admin@heliox.dev".
    destruct (EmailStr "admin@heliox.dev"); [apply signup_run | reflexivity]. }
  split.
  { unfold validated, Auth.SignupRequest_validate.
    change (Auth.sr_email Sample.signup_again) with "bob@globex-mail.io".
    destruct (EmailStr "bob@globex-mail.io"); [apply signup_run | reflexivity]. }
  split; [intros data w; apply signup_run |].
  intros to otp w. reflexivity.
Qed.

(** C10: a password reset for an address that no user has does raise: the
    first query of [forgot_password] ends in the error of the mappers for
    an unknown address as for a known one, and on every request; the
    message that is to be the same for both is never returned, no token is
    stored and no e-mail is queued. *)
Theorem forgot_password_mapper_error (env : Auth.ForgotEnv) :
  (Auth.pr_email Sample.forgot_unknown ∉ User.email <$> users Sample.world)
  ∧ (Auth.pr_email Sample.forgot_known ∈ User.email <$> users Sample.world)
  ∧ validated (Auth.PasswordResetRequest_validate EmailStr) (Auth.forgot_password env)
      Sample.forgot_unknown Sample.world
    = (inl (match EmailStr "nobody@heliox.dev" with
            | Some _ => Py.InvalidRequestError
            | None => Py.RequestValidationError
            end), Sample.world)
  ∧ Auth.forgot_password env Sample.forgot_unknown Sample.world
    = Auth.forgot_password env Sample.forgot_known Sample.world
  ∧ (∀ data w, Auth.forgot_password env data w = (inl Py.InvalidRequestError, w)).
Proof.
  split; [by_computation |]. split; [by_computation |].
  split.
  { unfold validated, Auth.PasswordResetRequest_validate.
    change (Auth.pr_email Sample.forgot_unknown) with "nobody@heliox.dev".
    destruct (EmailStr "nobody@heliox.dev"); [apply forgot_password_run | reflexivity]. }
  split; [rewrite !forgot_password_run; reflexivity |].
  intros data w. apply forgot_password_run.
Qed.

(** X26: the endpoints of the account that take no user, [verify_otp],
    [resend_otp], [login], [reset_password] and [verify_email], end in the
    error of the mappers at their first query on every request: no code or
    password is checked, no token is issued, nothing is written and no
    e-mail is queued. *)
Theorem account_endpoints_mapper_error (w : World) :
  (∀ env data, Auth.verify_otp jwt_encode env data w = (inl Py.InvalidRequestError, w))
  ∧ (∀ env data, Auth.resend_otp env data w = (inl Py.InvalidRequestError, w))
  ∧ (∀ env data,
       Auth.login bcrypt_checkpw jwt_encode env data w = (inl Py.InvalidRequestError, w))
  ∧ (∀ env data,
       Auth.reset_password bcrypt_hashpw env data w = (inl Py.InvalidRequestError, w))
  ∧ (∀ now db_now token,
       Auth.verify_email now db_now token w = (inl Py.InvalidRequestError, w)).
Proof.
  repeat apply conj; intros.
  - unfold Auth.verify_otp. rewrite run_bind, execute_run. reflexivity.
  - unfold Auth.resend_otp. rewrite run_bind, execute_run. reflexivity.
  - unfold Auth.login. rewrite run_bind, execute_run. reflexivity.
  - unfold Auth.reset_password. rewrite run_bind, execute_run. reflexivity.
  - unfold Auth.verify_email. rewrite run_bind, execute_run. reflexivity.
Qed.

End Accounts.

(** ** Settings *)

Lemma lstrip_head (s : string) (c : Ascii.ascii) (rest : string) :
  Py.lstrip s = String c rest → Py.isspace c = false.
Proof.
  induction s as [| a s IH]; [discriminate |].
  cbn [Py.lstrip]. destruct (Py.isspace a) eqn:Ha; [exact IH |].
  intros [= <- <-]. exact Ha.
Qed.

Lemma lstrip_fixed (c : Ascii.ascii) (s : string) :
  Py.isspace c = false → Py.lstrip (String c s) = String c s.
Proof. intros Hc. cbn [Py.lstrip]. rewrite Hc. reflexivity. Qed.

Lemma rstrip_head (c : Ascii.ascii) (s : string) :
  Py.isspace c = false → ∃ kept, Py.rstrip (String c s) = String c kept.
Proof.
  intros Hc. cbn [Py.rstrip]. destruct (Py.rstrip s); rewrite ?Hc; eauto.
Qed.

Lemma rstrip_idempotent (s : string) : Py.rstrip (Py.rstrip s) = Py.rstrip s.
Proof.
  induction s as [| c s IH]; [reflexivity |].
  cbn [Py.rstrip]. destruct (Py.rstrip s) as [| k kept] eqn:Hs.
  - destruct (Py.isspace c) eqn:Hc; [reflexivity |].
    cbn [Py.rstrip]. rewrite Hc. reflexivity.
  - cbn [Py.rstrip] in *. rewrite IH. reflexivity.
Qed.

(** What [strip] returns has no whitespace left at either end. *)
Lemma strip_idempotent (s : string) : Py.strip (Py.strip s) = Py.strip s.
Proof.
  unfold Py.strip. destruct (Py.lstrip s) as [| c rest] eqn:Hs; [reflexivity |].
  pose proof (lstrip_head s c rest Hs) as Hc.
  destruct (rstrip_head c rest Hc) as [kept Hkept]. rewrite Hkept.
  rewrite lstrip_fixed by exact Hc. rewrite <- Hkept. apply rstrip_idempotent.
Qed.

Lemma lstrip_contains (c : Ascii.ascii) (s : string) :
  contains c (Py.lstrip s) → contains c s.
Proof.
  unfold contains. induction s as [| a s IH]; [auto |].
  cbn [Py.lstrip list_ascii_of_string]. destruct (Py.isspace a); [| auto].
  intros H. right. auto.
Qed.

Lemma rstrip_contains (c : Ascii.ascii) (s : string) :
  contains c (Py.rstrip s) → contains c s.
Proof.
  unfold contains. induction s as [| a s IH]; [auto |].
  cbn [Py.rstrip list_ascii_of_string].
  destruct (Py.rstrip s) as [| k kept].
  - destruct (Py.isspace a); cbn [list_ascii_of_string]; [intros H; inversion H |].
    intros H. apply elem_of_cons in H as [-> | H]; [left | inversion H].
  - cbn [list_ascii_of_string] in *. intros H.
    apply elem_of_cons in H as [-> | H]; [left | right; auto].
Qed.

Lemma strip_contains (c : Ascii.ascii) (s : string) :
  contains c (Py.strip s) → contains c s.
Proof. intros H. apply lstrip_contains, rstrip_contains, H. Qed.

Lemma split_on_not_nil (sep : Ascii.ascii) (s : string) : Py.split_on sep s ≠ [].
Proof.
  induction s as [| c s IH]; [discriminate |].
  cbn [Py.split_on]. destruct (Ascii.eqb c sep); [discriminate |].
  destruct (Py.split_on sep s); [contradiction | discriminate].
Qed.

(** No piece holds the separator. *)
Lemma split_on_pieces (sep : Ascii.ascii) (s piece : string) :
  piece ∈ Py.split_on sep s → ¬ contains sep piece.
Proof.
  unfold contains. revert piece. induction s as [| c s IH]; intros piece Hin.
  - apply list_elem_of_singleton in Hin as ->. cbn. apply not_elem_of_nil.
  - cbn [Py.split_on] in Hin. destruct (Ascii.eqb_spec c sep) as [-> | Hc].
    + apply elem_of_cons in Hin as [-> | Hin]; [cbn; apply not_elem_of_nil | auto].
    + destruct (Py.split_on sep s) as [| first pieces] eqn:Hs.
      { exfalso. exact (split_on_not_nil sep s Hs). }
      apply elem_of_cons in Hin as [-> | Hin].
      * cbn [list_ascii_of_string]. rewrite not_elem_of_cons. split; [congruence |].
        apply IH. left.
      * apply IH. right. exact Hin.
Qed.

(** Joining the pieces with the separator gives the string back. *)
Lemma split_on_join (sep : Ascii.ascii) (s : string) :
  foldr (λ piece joined, piece +:+ String sep joined) "" (Py.split_on sep s)
  = s +:+ String sep "".
Proof.
  induction s as [| c s IH]; [reflexivity |].
  cbn [Py.split_on]. destruct (Ascii.eqb_spec c sep) as [-> | Hc].
  - cbn [foldr]. rewrite IH. reflexivity.
  - destruct (Py.split_on sep s) as [| first pieces] eqn:Hs.
    { exfalso. exact (split_on_not_nil sep s Hs). }
    cbn [foldr] in *.
    change (String c s +:+ String sep "") with (String c (s +:+ String sep "")).
    rewrite <- IH. reflexivity.
Qed.

(** X29: the origins [cors_origins_list] hands to the CORS middleware are
    pieces of the setting taken between commas: none is empty, none holds a
    comma, and none has whitespace left at either end; the pieces that are
    blank are dropped, and the default setting gives its one origin. *)
Theorem cors_origins_list_clean (self : Settings.t) :
  (∀ origin, origin ∈ Settings.cors_origins_list self →
     origin ≠ "" ∧ Py.strip origin = origin
     ∧ ¬ contains (Ascii.ascii_of_nat 44) origin
     ∧ ∃ piece, piece ∈ Py.split_on (Ascii.ascii_of_nat 44) (Settings.cors_origins self)
                ∧ origin = Py.strip piece)
  ∧ (∀ piece, piece ∈ Py.split_on (Ascii.ascii_of_nat 44) (Settings.cors_origins self) →
       Py.strip piece ≠ "" → Py.strip piece ∈ Settings.cors_origins_list self)
  ∧ (Settings.cors_origins self = "http://localhost:3000" →
     Settings.cors_origins_list self = ["http://localhost:3000"]).
Proof.
  unfold Settings.cors_origins_list. split; [| split].
  - intros origin Hin. apply list_elem_of_fmap in Hin as (piece & -> & Hin).
    apply list_elem_of_filter in Hin as [Hne Hin].
    split; [exact Hne |]. split; [apply strip_idempotent |]. split.
    + intros Hcomma. apply strip_contains in Hcomma.
      exact (split_on_pieces _ _ _ Hin Hcomma).
    + exists piece. split; [exact Hin | reflexivity].
  - intros piece Hin Hne. apply list_elem_of_fmap. exists piece. split; [reflexivity |].
    apply list_elem_of_filter. split; assumption.
  - intros ->. reflexivity.
Qed.

Example cors_origins_list_sample :
  Settings.cors_origins_list (settings Sample.world)
  = ["http://localhost:3000"; "https://app.heliox.dev"].
Proof. reflexivity. Qed.

(** ** The test of the e-mail configuration *)


Example test_email_refused_login :
  Auth.test_email (Auth.SMTPAuthenticationError "(535, b'5.7.8 Username and Password not accepted')")
    Sample.world
  = (inr (Py.Dict
            [ ("success", Py.Bool false);
              ("error", Py.Str "Authentication failed: (535, b'5.7.8 Username and Password not accepted')");
              ("hint", Py.Str "Check SMTP_USER and SMTP_PASS. For Gmail, use an App Password.") ]),
     Sample.world).
Proof. reflexivity. Qed.

(** ** The token bucket *)

Section TokenBucket.

Import RateLimiter.

Lemma request_step (b : Bucket) (now : Q) :
  let t := advance now b in
  ((1 <= t)%Q →
     request now b = (Allowed, mkBucket (t - 1)%Q (capacity b) (refill_rate b) now))
  ∧ ((t < 1)%Q →
     request now b = (RateLimited ((1 - t) / refill_rate b)%Q,
                      mkBucket t (capacity b) (refill_rate b) now)).
Proof.
  cbn zeta. unfold request. split; intros Ht.
  - apply Qle_bool_iff in Ht. rewrite Ht. reflexivity.
  - destruct (Qle_bool 1 (advance now b)) eqn:Hb; [| reflexivity].
    apply Qle_bool_iff in Hb. lra.
Qed.

Lemma retry_after_positive (t rate : Q) :
  (t < 1)%Q → (0 < rate)%Q → (0 < (1 - t) / rate)%Q.
Proof.
  intros Ht Hr. apply Qlt_shift_div_l; [exact Hr | lra].
Qed.

(** No time has passed: nothing is refilled. *)
Lemma advance_same_instant (b : Bucket) (now : Q) :
  (last_refill b == now)%Q → (tokens b <= capacity b)%Q →
  (advance now b == tokens b)%Q.
Proof.
  intros Hnow Hcap. unfold advance.
  assert (He : ((now - last_refill b) * refill_rate b == 0)%Q).
  { rewrite Hnow. ring. }
  destruct (Q.min_spec (capacity b) (tokens b + (now - last_refill b) * refill_rate b)%Q)
    as [[Hlt ->] | [Hle ->]]; lra.
Qed.

Lemma inject_succ (c : nat) :
  (inject_Z (Z.of_nat (S c)) == inject_Z (Z.of_nat c) + 1)%Q.
Proof.
  rewrite Nat2Z.inj_succ. unfold Z.succ. rewrite inject_Z_plus. reflexivity.
Qed.

Lemma inject_nonneg (c : nat) : (0 <= inject_Z (Z.of_nat c))%Q.
Proof.
  change 0%Q with (inject_Z 0). rewrite <- Zle_Qle. apply Nat2Z.is_nonneg.
Qed.

Lemma serve_length (times : list Q) (b : Bucket) :
  length (fst (serve times b)) = length times.
Proof.
  revert b. induction times as [| now rest IH]; intros b; [reflexivity |].
  cbn [serve]. destruct (request now b) as [o b'].
  specialize (IH b'). destruct (serve rest b') as [os b'']. simpl in *. congruence.
Qed.

(** With [c] whole tokens in the bucket, of [n] requests at one instant the
    first [c] are admitted and the others rejected. *)
Lemma serve_same_instant (n c : nat) (b : Bucket) (now : Q) :
  (last_refill b == now)%Q →
  (tokens b == inject_Z (Z.of_nat c))%Q →
  (tokens b <= capacity b)%Q →
  (0 < refill_rate b)%Q →
  take c (fst (serve (replicate n now) b)) = replicate (n `min` c) Allowed
  ∧ Forall rejected (drop c (fst (serve (replicate n now) b))).
Proof.
  revert c b. induction n as [| n IH]; intros c b Hnow Htok Hcap Hrate.
  - simpl. rewrite take_nil, drop_nil. split; [reflexivity | constructor].
  - pose proof (advance_same_instant b now Hnow Hcap) as Hadv.
    destruct (request_step b now) as [Hadmit Hreject]. cbn zeta in Hadmit, Hreject.
    simpl replicate. cbn [serve].
    destruct c as [| c].
    + rewrite Hreject by (rewrite Hadv, Htok; reflexivity).
      set (b' := mkBucket _ _ _ _).
      destruct (serve (replicate n now) b') as [os b''] eqn:Hserve.
      specialize (IH 0%nat b'). rewrite Hserve in IH. cbn [fst] in *.
      rewrite Nat.min_0_r, drop_0 in *. split; [reflexivity |].
      constructor.
      * eexists. split; [reflexivity |]. apply retry_after_positive; [| exact Hrate].
        rewrite Hadv, Htok. reflexivity.
      * apply IH; subst b'; cbn [last_refill tokens capacity refill_rate];
          try reflexivity; try assumption.
        -- rewrite Hadv. exact Htok.
        -- rewrite Hadv. exact Hcap.
    + pose proof (inject_succ c) as Hsucc. pose proof (inject_nonneg c) as Hpos.
      rewrite Hadmit by lra.
      set (b' := mkBucket _ _ _ _).
      destruct (serve (replicate n now) b') as [os b''] eqn:Hserve.
      specialize (IH c b'). rewrite Hserve in IH. cbn [fst] in *.
      simpl.
      assert (Htok' : (tokens b' == inject_Z (Z.of_nat c))%Q)
        by (subst b'; cbn [tokens]; lra).
      destruct IH as [IHtake IHdrop]; subst b';
        cbn [last_refill tokens capacity refill_rate] in *;
        try reflexivity; try assumption.
      * lra.
      * split; [f_equal; exact IHtake | exact IHdrop].
Qed.

(** C8: on each request the bucket advances to
    [min(capacity, tokens + elapsed * refill_rate)], admits and takes one
    token when that is at least 1, and otherwise rejects with
    [retry_after = (1 - tokens) / refill_rate]; for a key with 10 requests
    per second and a burst of 20, of 30 requests at one instant the first 20
    are admitted and the other 10 rejected with a positive [retry_after]. *)
Theorem token_bucket_admission (b : Bucket) (now : Q) :
  let t := Qmin (capacity b) (tokens b + (now - last_refill b) * refill_rate b)%Q in
  ((1 <= t)%Q →
     request now b = (Allowed, mkBucket (t - 1)%Q (capacity b) (refill_rate b) now))
  ∧ ((t < 1)%Q →
     request now b = (RateLimited ((1 - t) / refill_rate b)%Q,
                      mkBucket t (capacity b) (refill_rate b) now))
  ∧ ∃ rest,
      fst (serve (replicate 30 now) (new_bucket 10 20 now)) = replicate 20 Allowed ++ rest
      ∧ length rest = 10%nat
      ∧ Forall rejected rest.
Proof.
  cbn zeta. split; [apply request_step |]. split; [apply request_step |].
  assert (Hserve : take 20 (fst (serve (replicate 30 now) (new_bucket 10 20 now)))
                   = replicate (30 `min` 20) Allowed
                   ∧ Forall rejected
                       (drop 20 (fst (serve (replicate 30 now) (new_bucket 10 20 now))))).
  { apply serve_same_instant; cbn [new_bucket last_refill tokens capacity refill_rate];
      try reflexivity. apply Qle_refl. }
  destruct Hserve as [Htake Hdrop].
  pose proof (serve_length (replicate 30 now) (new_bucket 10 20 now)) as Hlen.
  rewrite length_replicate in Hlen.
  exists (drop 20 (fst (serve (replicate 30 now) (new_bucket 10 20 now)))).
  split; [| split; [| exact Hdrop]].
  - rewrite <- Htake at 1. change (30 `min` 20)%nat with 20%nat. rewrite take_drop.
    reflexivity.
  - rewrite length_drop, Hlen. reflexivity.
Qed.

Example token_bucket_thirty_at_once :
  fst (serve (replicate 30 0%Q) (new_bucket 10 20 0))
  = replicate 20 Allowed
    ++ replicate 10 (RateLimited (1 # 10)).
Proof.
  vm_compute. reflexivity.
Qed.

End TokenBucket.

